(** * PlanningPokerUI: the session state synchronisation engine

    A shallow embedding of the React component [PlanningPokerApp] and of the
    helpers around it (App.tsx): the room replica kept in the [room] state
    variable, the reducers registered on the SignalR connection, the
    vote-visibility flags [isVoting] / [showVotesState], and the lifecycle
    handlers (join, vote, reveal, clear, leave, reconnect).

    Modelling conventions.
    - A [Record<string, User>] is a JavaScript object. Its own keys and
      their values are a finite map ([gmap string Entry.t]); object spread
      [{...a, ...b}] copies own keys and is the right-biased merge [b ∪ a],
      and [delete] removes an own key. A read [o[k]] of a key that is not
      an own key finds the members of [Object.prototype]
      ([prototypeKeys]), and a write [o[k] = v] stores an own key except
      for ["__proto__"] on an object that has no such own key, which goes
      to the setter and stores nothing ([jsAssign]). The prototype that
      this setter installs is an entry, which has the keys [id], [name] and
      [vote] at most and inherits the rest from [Object.prototype]. The
      component reads a replica through its own keys (spread,
      [Object.values], the guarded [for...in]) and through
      [hasOwnProperty], and reads by key on a fresh spread copy or under
      that guard, so it cannot tell the installed prototype from the old
      one: it is not kept.
    - An updater function that throws does so while React renders; with no
      error boundary the component is unmounted. A callback whose updater
      throws therefore yields [Throw] instead of a state.
    - Every [useState] variable is a field of [AppState]; a call [setX v]
      is the function [setX v] on states.
    - An [await]ed remote call is resolved by an explicit [Outcome] argument;
      the SignalR invocations a handler performs are returned as a list of
      [HubCall]s, in program order.
    - The callbacks passed to [connection.on] are created once, inside
      [setupSignalR], and stay registered for the life of the connection.
      The state variables they mention ([roomId], [user], [showVotesState])
      are therefore the constants of the render in which that [setupSignalR]
      closure was created. A connection carries this captured [Scope].
    - The [useEffect] that stops a connection once [hubConnection] no longer
      holds it sets no state variable and is left out. *)

From stdpp Require Import gmap strings pretty.

Open Scope string_scope.

(** ** Data model *)

(** [interface User { id: string; name: string; vote: string | null }] *)
Module User.
Record t := mk { id : string; name : string; vote : option string }.

#[global] Instance eq_dec : EqDecision t := ltac:(solve_decision).

(** [{ ...u, vote: v }] *)
Definition withVote (v : option string) (u : t) : t :=
  {| id := id u; name := name u; vote := v |}.
End User.

(** What the replica holds under a key: a [User], as the payloads of the
    server carry them, or the object [{ vote }] that [{ ...f, vote }] is
    when [f] is a function or [Object.prototype] (no own enumerable
    property to copy). *)
Module Entry.
Inductive t := user (u : User.t) | bare (vote : option string).

#[global] Instance eq_dec : EqDecision t := ltac:(solve_decision).

(** [e.vote] *)
Definition vote (e : t) : option string :=
  match e with
  | user u => User.vote u
  | bare v => v
  end.

(** [{ ...e, vote: v }] *)
Definition withVote (v : option string) (e : t) : t :=
  match e with
  | user u => user (User.withVote v u)
  | bare _ => bare v
  end.
End Entry.

(** [interface Room { id: string; users: Record<string, User> }] *)
Module Room.
Record t := mk { id : string; users : gmap string Entry.t }.

#[global] Instance eq_dec : EqDecision t := ltac:(solve_decision).

(** [{ ...r, users: us }] *)
Definition withUsers (us : gmap string Entry.t) (r : t) : t :=
  {| id := id r; users := us |}.
End Room.

(** The names of the members of [Object.prototype]: what a read [o[k]]
    finds, through the prototype chain, on an object literal that has no
    own key [k]. All twelve are truthy (eleven functions, and the object
    that the ["__proto__"] getter returns). *)
Definition prototypeKeys : list string :=
  ["constructor"; "hasOwnProperty"; "isPrototypeOf"; "propertyIsEnumerable";
   "toLocaleString"; "toString"; "valueOf"; "__proto__";
   "__defineGetter__"; "__defineSetter__"; "__lookupGetter__";
   "__lookupSetter__"].

Definition inheritsMember (key : string) : bool :=
  bool_decide (key ∈ prototypeKeys).

(** [o[key] = v] on an object literal: an own key is stored, except that
    ["__proto__"], when [o] has no such own key, reaches the setter of
    [Object.prototype], which replaces the prototype of [o] and stores
    nothing. *)
Definition jsAssign {A} (key : string) (v : A) (o : gmap string A)
  : gmap string A :=
  if String.eqb key "__proto__" && bool_decide (o !! key = None) then o
  else <[key := v]> o.

(** The result of a function that can throw: a value or a thrown error. *)
Inductive Result (A : Type) := Return (a : A) | Throw (message : string).
Arguments Return {A} a.
Arguments Throw {A} message.

(** The [TypeError] of a call [o.hasOwnProperty(k)] on an object whose own
    key ["hasOwnProperty"] holds an entry (the wording is the engine's). *)
Definition hasOwnPropertyNotAFunction : string :=
  "prevRoom.users.hasOwnProperty is not a function".

(** [Object.values(o)]; the order of the values is immaterial to every use
    below ([every]). *)
Definition Object_values {A} (o : gmap string A) : list A :=
  (map_to_list o).*2.

(** JavaScript truthiness of a [string | null]: [null] and the empty string
    are falsy. *)
Definition truthy (o : option string) : bool :=
  match o with
  | Some s => negb (String.eqb s "")
  | None => false
  end.

(** [a || b] on strings: the empty string is falsy. *)
Definition orElse (a b : string) : string :=
  if String.eqb a "" then b else a.

(** ** The replica reducers (the updater functions handed to [setRoom]) *)

Module Replica.

(** 'UserJoined':
    [prev => { if (!prev) return updatedRoomData;
               const correctRoomId = prev.id;
               const incomingUsers = updatedRoomData.users || {};
               const mergedUsers = { ...prev.users, ...incomingUsers };
               return { ...prev, ...updatedRoomData,
                        id: correctRoomId, users: mergedUsers }; }]
    An object is truthy even when empty, so on a [Room] the guard
    [updatedRoomData.users || {}] is [updatedRoomData.users]. *)
Definition applyJoin (updatedRoomData : Room.t) (prev : option Room.t)
  : option Room.t :=
  match prev with
  | None => Some updatedRoomData
  | Some prev =>
      let correctRoomId := Room.id prev in
      let incomingUsers := Room.users updatedRoomData in
      let mergedUsers := incomingUsers ∪ Room.users prev in
      Some {| Room.id := correctRoomId; Room.users := mergedUsers |}
  end.

(** 'UserLeft':
    [prev => { if (!prev) return null;
               const remainingUsers = { ...prev.users };
               delete remainingUsers[userId];
               return { ...prev, users: remainingUsers }; }] *)
Definition applyLeave (userId : string) (prev : option Room.t)
  : option Room.t :=
  match prev with
  | None => None
  | Some prev =>
      let remainingUsers := delete userId (Room.users prev) in
      Some (Room.withUsers remainingUsers prev)
  end.

(** 'VoteReceived':
    [prevRoom => { if (!prevRoom) return null;
                   const updatedUsers = { ...prevRoom.users };
                   const userToUpdate = updatedUsers[userId];
                   if (userToUpdate) {
                     updatedUsers[userId] = { ...userToUpdate, vote };
                   } else { console.warn(...) }
                   return { ...prevRoom, users: updatedUsers }; }]
    [updatedUsers[userId]] is the own entry if there is one; otherwise the
    member of [Object.prototype] of that name if there is one, which is
    truthy and has nothing for the spread to copy; otherwise [undefined]. *)
Definition applyVote (userId vote : string) (prevRoom : option Room.t)
  : option Room.t :=
  match prevRoom with
  | None => None
  | Some prevRoom =>
      let updatedUsers :=
        match Room.users prevRoom !! userId with
        | Some userToUpdate =>
            jsAssign userId (Entry.withVote (Some vote) userToUpdate)
              (Room.users prevRoom)
        | None =>
            if inheritsMember userId then
              jsAssign userId (Entry.bare (Some vote)) (Room.users prevRoom)
            else Room.users prevRoom
        end in
      Some (Room.withUsers updatedUsers prevRoom)
  end.

(** 'AllVotesCleared':
    [prevRoom => { if (!prevRoom) return null;
                   const updatedUsers = {};
                   for (const userId in prevRoom.users)
                     if (prevRoom.users.hasOwnProperty(userId))
                       updatedUsers[userId] =
                         { ...prevRoom.users[userId], vote: null };
                   return { ...prevRoom, users: updatedUsers }; }]
    The loop is a fold over the own keys that fills a fresh object. (The
    keys that [for...in] finds on the prototype chain are not own keys: for
    them the test is false and nothing is done.) The test calls
    [prevRoom.users.hasOwnProperty], which is the member of
    [Object.prototype] unless the replica has an own key of that name: then
    it is an entry, and the call is a [TypeError]. *)
Definition clearLoop (users : gmap string Entry.t)
  : Result (gmap string Entry.t) :=
  map_fold (λ userId e acc,
              match acc with
              | Throw error => Throw error
              | Return updatedUsers =>
                  match users !! "hasOwnProperty" with
                  | Some _ => Throw hasOwnPropertyNotAFunction
                  | None =>
                      Return (jsAssign userId (Entry.withVote None e)
                                updatedUsers)
                  end
              end)
           (Return ∅) users.

Definition applyClearAll (prevRoom : option Room.t)
  : Result (option Room.t) :=
  match prevRoom with
  | None => Return None
  | Some prevRoom =>
      match clearLoop (Room.users prevRoom) with
      | Throw error => Throw error
      | Return updatedUsers =>
          Return (Some (Room.withUsers updatedUsers prevRoom))
      end
  end.

End Replica.

(** ** Component state *)

Inductive Page := createJoin | planningPoker.

(** What the closures created in one render see of the state variables that
    the connection callbacks mention. *)
Record Scope := mkScope {
  sc_roomId : option string;
  sc_user : option User.t;
  sc_showVotesState : bool
}.

(** A built [HubConnection]: its callbacks were created by one call of
    [setupSignalR] and keep that call's scope. *)
Record HubConnection := mkConnection { handlersScope : Scope }.

(** The ten [useState] variables of [PlanningPokerApp]. *)
Record AppState := mkState {
  currentPage : Page;
  roomId : option string;
  user : option User.t;
  room : option Room.t;
  hubConnection : option HubConnection;
  selectedVote : option string;
  error : option string;
  isVoting : bool;
  isLoading : bool;
  showVotesState : bool
}.

(** The [useState] initial values. *)
Definition initialState : AppState :=
  {| currentPage := createJoin; roomId := None; user := None; room := None;
     hubConnection := None; selectedVote := None; error := None;
     isVoting := true; isLoading := false; showVotesState := false |}.

Definition scopeOf (s : AppState) : Scope :=
  {| sc_roomId := roomId s; sc_user := user s;
     sc_showVotesState := showVotesState s |}.

Definition setCurrentPage (v : Page) (s : AppState) : AppState :=
  mkState v (roomId s) (user s) (room s) (hubConnection s) (selectedVote s)
          (error s) (isVoting s) (isLoading s) (showVotesState s).

Definition setRoomId (v : option string) (s : AppState) : AppState :=
  mkState (currentPage s) v (user s) (room s) (hubConnection s)
          (selectedVote s) (error s) (isVoting s) (isLoading s)
          (showVotesState s).

Definition setUser (v : option User.t) (s : AppState) : AppState :=
  mkState (currentPage s) (roomId s) v (room s) (hubConnection s)
          (selectedVote s) (error s) (isVoting s) (isLoading s)
          (showVotesState s).

(** [setRoom] is used both with a value and with an updater function; the
    updater form subsumes the other ([setRoom (λ _, v)]). *)
Definition setRoom (f : option Room.t → option Room.t) (s : AppState)
  : AppState :=
  mkState (currentPage s) (roomId s) (user s) (f (room s)) (hubConnection s)
          (selectedVote s) (error s) (isVoting s) (isLoading s)
          (showVotesState s).

Definition setHubConnection (v : option HubConnection) (s : AppState)
  : AppState :=
  mkState (currentPage s) (roomId s) (user s) (room s) v (selectedVote s)
          (error s) (isVoting s) (isLoading s) (showVotesState s).

Definition setSelectedVote (v : option string) (s : AppState) : AppState :=
  mkState (currentPage s) (roomId s) (user s) (room s) (hubConnection s) v
          (error s) (isVoting s) (isLoading s) (showVotesState s).

Definition setError (v : option string) (s : AppState) : AppState :=
  mkState (currentPage s) (roomId s) (user s) (room s) (hubConnection s)
          (selectedVote s) v (isVoting s) (isLoading s) (showVotesState s).

Definition setIsVoting (v : bool) (s : AppState) : AppState :=
  mkState (currentPage s) (roomId s) (user s) (room s) (hubConnection s)
          (selectedVote s) (error s) v (isLoading s) (showVotesState s).

Definition setIsLoading (v : bool) (s : AppState) : AppState :=
  mkState (currentPage s) (roomId s) (user s) (room s) (hubConnection s)
          (selectedVote s) (error s) (isVoting s) v (showVotesState s).

Definition setShowVotesState (v : bool) (s : AppState) : AppState :=
  mkState (currentPage s) (roomId s) (user s) (room s) (hubConnection s)
          (selectedVote s) (error s) (isVoting s) (isLoading s) v.

(** The vote-visibility state machine read off the two flags. *)
Inductive Visibility := Collecting | Revealed.

Definition visibility (s : AppState) : Visibility :=
  if showVotesState s then Revealed else Collecting.

Definition canVote (s : AppState) : bool := isVoting s.

(** ** Remote operations and their outcomes *)

(** What a handler asks of the connection: [connection.invoke(name, args)]
    for the five hub methods, [connection.start()] and [connection.stop()]. *)
Inductive HubCall :=
| JoinRoom (roomId : string) (user : User.t)
| SendVote (roomId userId vote : string)
| RevealVotes (roomId : option string)
| ClearAllVotes (roomId : string)
| LeaveRoom (roomId userId : string)
| Start
| Stop.

(** How an awaited promise settles; [message] is [err.message] (empty when
    the rejection carries none). *)
Inductive Outcome := Resolved | Rejected (message : string).


(** ** The event reducers registered in [setupSignalR] *)

(** [connection.on('UserJoined', (updatedRoomData, joinedUserName) => {
       setRoom(prev => ...); setError(null); })] *)
Definition onUserJoined (updatedRoomData : Room.t) (s : AppState) : AppState :=
  setError None (setRoom (Replica.applyJoin updatedRoomData) s).

(** [connection.on('UserLeft', (userId, leftUserName) => {
       setRoom(prev => ...); })] *)
Definition onUserLeft (userId : string) (s : AppState) : AppState :=
  setRoom (Replica.applyLeave userId) s.

(** [connection.on('VoteReceived', (userId, vote) => {
       setRoom(prevRoom => ...); setError(null); })] *)
Definition onVoteReceived (userId vote : string) (s : AppState) : AppState :=
  setError None (setRoom (Replica.applyVote userId vote) s).

(** [connection.on('VotesRevealed', () => {
       setIsVoting(false);
       setShowVotesState(!showVotesState);
       setError(null); })]
    [showVotesState] is the constant of the scope the callback was created
    in, not the current value of the state variable. *)
Definition onVotesRevealed (scope : Scope) (s : AppState) : AppState :=
  setError None
    (setShowVotesState (negb (sc_showVotesState scope))
       (setIsVoting false s)).

(** [connection.on('AllVotesCleared', () => {
       setRoom(prevRoom => ...);
       setSelectedVote(null); setIsVoting(true);
       setShowVotesState(false); setError(null); })]
    The updater is the one function here that can throw. *)
Definition onAllVotesCleared (s : AppState) : Result AppState :=
  match Replica.applyClearAll (room s) with
  | Throw error => Throw error
  | Return cleared =>
      Return
        (setError None
           (setShowVotesState false
              (setIsVoting true
                 (setSelectedVote None
                    (setRoom (λ _, cleared) s)))))
  end.

(** [connection.onclose(error => {
       setError('Connection lost. Attempting to reconnect...');
       setHubConnection(null); })] *)
Definition onclose (s : AppState) : AppState :=
  setHubConnection None
    (setError (Some "Connection lost. Attempting to reconnect...") s).

(** [connection.onreconnecting(error => { setError('Connection lost. ...'); })] *)
Definition onreconnecting (s : AppState) : AppState :=
  setError (Some "Connection lost. Attempting to reconnect...") s.

(** ** Leaving *)

(** The unconditional tail of [handleLeaveRoom]:
    [setRoomId(null); setUser(null); setRoom(null); setSelectedVote(null);
     setError(null); setIsVoting(true); setCurrentPage('createJoin');
     setIsLoading(false);] *)
Definition resetSession (s : AppState) : AppState :=
  setIsLoading false
    (setCurrentPage createJoin
       (setIsVoting true
          (setError None
             (setSelectedVote None
                (setRoom (λ _, None)
                   (setUser None
                      (setRoomId None s))))))).

(** The [try] block of [handleLeaveRoom]:
    [if (roomId && user) { await hubConnection.invoke("LeaveRoom", roomId, user.id); }
     await hubConnection.stop();]
    A rejected [LeaveRoom] jumps to the [catch], so [stop] is not reached. *)
Definition leaveCalls (rid : option string) (usr : option User.t)
    (leaveRoom : Outcome) : list HubCall :=
  match rid, usr with
  | Some r, Some u =>
      if truthy rid then
        match leaveRoom with
        | Resolved => [LeaveRoom r (User.id u); Stop]
        | Rejected _ => [LeaveRoom r (User.id u)]
        end
      else [Stop]
  | _, _ => [Stop]
  end.

(** [handleLeaveRoom = useCallback(async () => {
       setIsLoading(true);
       if (hubConnection) {
         try { ... } catch (err) { console.error(...) }
         finally { setHubConnection(null); }
       }
       ...reset... }, [hubConnection, roomId, user])]
    [hub], [rid], [usr] are the values of [hubConnection], [roomId], [user]
    in the closure that runs. How [stop()] settles changes nothing: its
    rejection is caught and logged. *)
Definition handleLeaveRoom_in (hub : option HubConnection)
    (rid : option string) (usr : option User.t)
    (leaveRoom : Outcome) (s : AppState) : AppState * list HubCall :=
  let s := setIsLoading true s in
  match hub with
  | Some _ =>
      (resetSession (setHubConnection None s), leaveCalls rid usr leaveRoom)
  | None => (resetSession s, [])
  end.

(** [handleLeaveRoom] as the page calls it ([onLeaveRoom={handleLeaveRoom}]):
    the dependency list covers everything the callback reads, so it reads
    the current state. *)
Definition handleLeaveRoom (leaveRoom : Outcome) (s : AppState)
  : AppState * list HubCall :=
  handleLeaveRoom_in (hubConnection s) (roomId s) (user s) leaveRoom s.

(** [handleLeaveRoom] as a connection callback calls it: the closure is the
    one of the scope in which [setupSignalR] was created. That scope's
    [hubConnection] is [null], or [setupSignalR] would have returned before
    building the connection. *)
Definition staleLeave (scope : Scope) (s : AppState)
  : AppState * list HubCall :=
  handleLeaveRoom_in None (sc_roomId scope) (sc_user scope) Resolved s.

(** [connection.onreconnected(async connectionId => {
       setError(null);
       setHubConnection(connection);
       if (roomId && user) {
         try { await connection.invoke("JoinRoom", roomId, user); }
         catch (err) {
           setError("Failed to rejoin room after reconnect. ...");
           handleLeaveRoom();
         }
       } else { console.warn(...); handleLeaveRoom(); } })]
    [roomId], [user] and [handleLeaveRoom] are those of the scope the
    callback was created in. *)
Definition onreconnected (connection : HubConnection) (joinRoom : Outcome)
    (s : AppState) : AppState * list HubCall :=
  let scope := handlersScope connection in
  let s := setHubConnection (Some connection) (setError None s) in
  match sc_roomId scope, sc_user scope with
  | Some r, Some u =>
      if truthy (sc_roomId scope) then
        match joinRoom with
        | Resolved => (s, [JoinRoom r u])
        | Rejected _ =>
            let s :=
              setError
                (Some "Failed to rejoin room after reconnect. Please refresh or leave/rejoin.")
                s in
            let '(s, calls) := staleLeave scope s in
            (s, JoinRoom r u :: calls)
        end
      else staleLeave scope s
  | _, _ => staleLeave scope s
  end.

(** ** Local actions *)

(** The guard of [handleVote]:
    [if (!roomId || !user || !hubConnection || !isVoting) return;] *)
Definition voteRejected (s : AppState) : bool :=
  negb (truthy (roomId s)) || negb (bool_decide (is_Some (user s)))
  || negb (bool_decide (is_Some (hubConnection s))) || negb (isVoting s).

(** [handleVote] up to its [await]:
    [setSelectedVote(vote);
     ... hubConnection.invoke("SendVote", roomId, user.id, vote)]
    [None] is the early [return]; otherwise the state as it stands when the
    invocation is issued, and the invocation. *)
Definition handleVote_begin (vote : string) (s : AppState)
  : option (AppState * HubCall) :=
  if voteRejected s then None
  else
    match roomId s, user s with
    | Some r, Some u =>
        Some (setSelectedVote (Some vote) s, SendVote r (User.id u) vote)
    | _, _ => None
    end.

(** [handleVote] after its [await]: nothing on success, and
    [catch (err) { setError(err.message || 'Failed to send vote');
                   setSelectedVote(null); }] *)
Definition handleVote_settle (sendVote : Outcome) (s : AppState) : AppState :=
  match sendVote with
  | Resolved => s
  | Rejected message =>
      setSelectedVote None
        (setError (Some (orElse message "Failed to send vote")) s)
  end.

(** [handleVote], run to completion. *)
Definition handleVote (vote : string) (sendVote : Outcome) (s : AppState)
  : AppState * list HubCall :=
  match handleVote_begin vote s with
  | None => (s, [])
  | Some (s1, call) => (handleVote_settle sendVote s1, [call])
  end.

(** [handleClearVotes = async () => {
       if (!roomId || !hubConnection) return;
       try { await hubConnection.invoke("ClearAllVotes", roomId); }
       catch (err) { setError(err.message || "Failed to clear votes"); } }] *)
Definition handleClearVotes (clearAll : Outcome) (s : AppState)
  : AppState * list HubCall :=
  match roomId s, hubConnection s with
  | Some r, Some _ =>
      if truthy (roomId s) then
        match clearAll with
        | Resolved => (s, [ClearAllVotes r])
        | Rejected message =>
            (setError (Some (orElse message "Failed to clear votes")) s,
             [ClearAllVotes r])
        end
      else (s, [])
  | _, _ => (s, [])
  end.

(** [handleRevealVotes = useCallback(async () => {
       if (hubConnection) {
         await hubConnection.invoke("RevealVotes", roomId);
         console.log(...) } }, [hubConnection, roomId])]
    No state variable is set, however the invocation settles. *)
Definition handleRevealVotes (s : AppState) : AppState * list HubCall :=
  match hubConnection s with
  | Some _ => (s, [RevealVotes (roomId s)])
  | None => (s, [])
  end.

(** ** The page: which buttons can fire *)

(** [disabled={Object.values(room.users).every(u => u.vote === null)}],
    the attribute of both the reveal and the clear button. *)
Definition everyVoteNull (room : Room.t) : bool :=
  forallb (λ u, bool_decide (Entry.vote u = None))
          (Object_values (Room.users room)).

Definition revealDisabled (room : Room.t) : bool := everyVoteNull room.
Definition clearDisabled (room : Room.t) : bool := everyVoteNull room.

(** [PlanningPokerPage] is mounted, with the props [room={room}], only under
    [currentPage === 'createJoin' ? ... : room && user ? <PlanningPokerPage/> : ...]. *)
Definition pageRoom (s : AppState) : option Room.t :=
  match currentPage s with
  | createJoin => None
  | planningPoker =>
      match room s, user s with
      | Some r, Some _ => Some r
      | _, _ => None
      end
  end.

(** A click on the reveal button: [onClick={onRevealVotes}], inert when the
    button is disabled or not on the page. *)
Definition clickReveal (s : AppState) : AppState * list HubCall :=
  match pageRoom s with
  | Some r => if revealDisabled r then (s, []) else handleRevealVotes s
  | None => (s, [])
  end.

(** A click on the clear button: [onClick={() => { onClearVotes(); }}]. *)
Definition clickClear (clearAll : Outcome) (s : AppState)
  : AppState * list HubCall :=
  match pageRoom s with
  | Some r => if clearDisabled r then (s, []) else handleClearVotes clearAll s
  | None => (s, [])
  end.

(** ** The control plane: [createRoom] *)

(** A parsed JSON body. Only the zero test of a number matters here. *)
#[local] Set Warnings "-register-all".
Inductive JsValue :=
| JNull
| JBool (b : bool)
| JNumber (n : Z)
| JString (s : string)
| JArray (items : list JsValue)
| JObject (fields : list (string * JsValue)).
#[local] Set Warnings "register-all".

(** [!data] *)
Definition falsy (data : JsValue) : bool :=
  match data with
  | JNull => true
  | JBool b => negb b
  | JNumber n => Z.eqb n 0
  | JString s => String.eqb s ""
  | JArray _ | JObject _ => false
  end.

Fixpoint assoc (key : string) (fields : list (string * JsValue))
  : option JsValue :=
  match fields with
  | [] => None
  | (k, v) :: rest => if String.eqb k key then Some v else assoc key rest
  end.

(** [data.id] when [typeof data.id === 'string'], for a truthy [data]: only
    an object carries an [id] property. *)
Definition stringId (data : JsValue) : option string :=
  match data with
  | JObject fields =>
      match assoc "id" fields with
      | Some (JString s) => Some s
      | _ => None
      end
  | _ => None
  end.

(** What [createRoom] sees of a [Response]: [json] is how the first call of
    [response.json()] settles. *)
Record Response := mkResponse {
  ok : bool;
  status : N;
  statusText : string;
  json : Result JsValue
}.

(** The rejection of a second [response.json()]: the body was consumed by the
    first (the wording of the [TypeError] is the engine's). *)
Definition bodyAlreadyRead : string := "body stream already read".

(** [const createRoom = async (roomId) => {
       const response = await fetch(..., { method: 'POST' });
       if (!response.ok) {
         let errorDetail = `HTTP ${response.status} ${response.statusText}`;
         try { const errorData = await response.json(); ...errorDetail += ... }
         catch (parseError) { throw new Error(`Failed to create room: ${errorDetail}`) };
       }
       const data = await response.json();
       if (!data || typeof data.id !== 'string') { console.warn(...); return roomId; }
       return data.id; }]
    The [throw] sits in the [catch]: a failure response whose body parses
    falls through to the second [response.json()]. *)
Definition createRoom (roomId : string) (fetched : Result Response)
  : Result string :=
  match fetched with
  | Throw e => Throw e
  | Return response =>
      if negb (ok response) then
        let errorDetail :=
          "HTTP " +:+ pretty (status response) +:+ " " +:+ statusText response in
        match json response with
        | Throw _ => Throw ("Failed to create room: " +:+ errorDetail)
        | Return _ => Throw bodyAlreadyRead
        end
      else
        match json response with
        | Throw e => Throw e
        | Return data =>
            if falsy data then Return roomId
            else
              match stringId data with
              | None => Return roomId
              | Some id => Return id
              end
        end
  end.

(** ** Joining *)

(** [setupSignalR = useCallback(async (currentRoomId, currentUser) => {
       if (hubConnection) { return; }
       try {
         const connection = new HubConnectionBuilder()...build();
         connection.on(...); ...            // the callbacks above
         await connection.start();
         setHubConnection(connection);
         try { await connection.invoke("JoinRoom", currentRoomId, currentUser); }
         catch (err) {
           setError("Failed to register with real-time service: " + ...);
           connection.stop()...; setHubConnection(null); throw err; }
       } catch (err) {
         setError(`Failed to connect to real-time service: ${err.message || 'Unknown error'}`);
         setHubConnection(null); throw err; }
     }, [hubConnection, roomId, user])]
    [useCallback] hands out the closure made in the render in which
    [hubConnection], [roomId] or [user] last changed. What that closure has
    of these three is what the render [render] of the call has;
    [capturedShowVotes] is what it has of [showVotesState], which may be
    older than the one of [render]. The callbacks of the connection it
    builds keep these values. *)
Definition setupSignalR (render : AppState) (capturedShowVotes : bool)
    (currentRoomId : string) (currentUser : User.t)
    (start joinRoom : Outcome) (s : AppState)
  : Result unit * AppState * list HubCall :=
  match hubConnection render with
  | Some _ => (Return tt, s, [])
  | None =>
      let connection :=
        {| handlersScope :=
             mkScope (roomId render) (user render) capturedShowVotes |} in
      let connectFailed message s :=
        setHubConnection None
          (setError
             (Some ("Failed to connect to real-time service: "
                      +:+ orElse message "Unknown error")) s) in
      match start with
      | Rejected message => (Throw message, connectFailed message s, [Start])
      | Resolved =>
          let s := setHubConnection (Some connection) s in
          match joinRoom with
          | Resolved =>
              (Return tt, s, [Start; JoinRoom currentRoomId currentUser])
          | Rejected message =>
              let s :=
                setHubConnection None
                  (setError
                     (Some ("Failed to register with real-time service: "
                              +:+ orElse message "Unknown error")) s) in
              (Throw message, connectFailed message s,
               [Start; JoinRoom currentRoomId currentUser; Stop])
          end
      end
  end.

(** The [catch] and [finally] of [handleJoinRoom]:
    [const message = error || err.message || 'An unknown error ...';
     setError(message); setRoomId(null); setUser(null); setRoom(null);
     if (hubConnection) { hubConnection.stop()...; setHubConnection(null); }
     ... setIsLoading(false);]
    [error] and [hubConnection] are those of the render whose closure runs. *)
Definition joinFailed (render : AppState) (errMessage : string)
    (s : AppState) : AppState * list HubCall :=
  let message :=
    orElse (default "" (error render))
      (orElse errMessage
         "An unknown error occurred during room creation/join.") in
  let s :=
    setRoom (λ _, None)
      (setUser None (setRoomId None (setError (Some message) s))) in
  match hubConnection render with
  | Some _ => (setIsLoading false (setHubConnection None s), [Stop])
  | None => (setIsLoading false s, [])
  end.

(** What the outside world answers during one join: the [AddRoom] response,
    the results of [addUserToRoom] and [fetchRoomData], and how
    [connection.start()] and the [JoinRoom] invocation settle. *)
Record JoinReplies := mkReplies {
  addRoom : Result Response;
  addUser : Result User.t;
  fetchRoom : Result Room.t;
  started : Outcome;
  registered : Outcome
}.

(** [handleJoinRoom = async (newRoomId, newUserName) => {
       setIsLoading(true); setError(null);
       try {
         const confirmedRoomId = await createRoom(newRoomId);
         setRoomId(confirmedRoomId);
         const newUser = await addUserToRoom(confirmedRoomId, newUserName);
         setUser(newUser);
         const fetchedRoom = await fetchRoomData(confirmedRoomId);
         fetchedRoom.users[newUser.id] = newUser;
         setRoom(fetchedRoom);
         await setupSignalR(confirmedRoomId, newUser);
         setCurrentPage('planningPoker');
       } catch (err) { ... } finally { setIsLoading(false); } }]
    It runs in the closure of the render [s] in which the join button was
    clicked; [capturedShowVotes] is the [showVotesState] of the memoised
    [setupSignalR] that this render holds. *)
Definition handleJoinRoom (newRoomId newUserName : string)
    (replies : JoinReplies) (capturedShowVotes : bool) (s : AppState)
  : AppState * list HubCall :=
  let render := s in
  let s := setError None (setIsLoading true s) in
  match createRoom newRoomId (addRoom replies) with
  | Throw e => joinFailed render e s
  | Return confirmedRoomId =>
      let s := setRoomId (Some confirmedRoomId) s in
      match addUser replies with
      | Throw e => joinFailed render e s
      | Return newUser =>
          let s := setUser (Some newUser) s in
          match fetchRoom replies with
          | Throw e => joinFailed render e s
          | Return fetchedRoom =>
              let fetchedRoom :=
                Room.withUsers
                  (jsAssign (User.id newUser) (Entry.user newUser)
                     (Room.users fetchedRoom))
                  fetchedRoom in
              let s := setRoom (λ _, Some fetchedRoom) s in
              match setupSignalR render capturedShowVotes confirmedRoomId
                      newUser (started replies) (registered replies) s with
              | (Throw e, s, calls) =>
                  let '(s, calls') := joinFailed render e s in
                  (s, (calls ++ calls')%list)
              | (Return _, s, calls) =>
                  (setIsLoading false (setCurrentPage planningPoker s), calls)
              end
          end
      end
  end.

(** ** The event channel *)

(** The remote events and transport notifications a live connection can
    deliver, with the data each callback receives. *)
Inductive HubEvent :=
| UserJoined (updatedRoomData : Room.t) (joinedUserName : string)
| UserLeft (userId leftUserName : string)
| VoteReceived (userId vote : string)
| VotesRevealed
| AllVotesCleared.

(** The callback that the connection [connection] runs for an event, and
    the render that follows: the next state, or the error that unmounts the
    component. *)
Definition deliver (connection : HubConnection) (e : HubEvent)
    (s : AppState) : Result AppState :=
  match e with
  | UserJoined updatedRoomData _ => Return (onUserJoined updatedRoomData s)
  | UserLeft userId _ => Return (onUserLeft userId s)
  | VoteReceived userId vote => Return (onVoteReceived userId vote s)
  | VotesRevealed => Return (onVotesRevealed (handlersScope connection) s)
  | AllVotesCleared => onAllVotesCleared s
  end.

(** Events delivered one after the other, each callback run to completion,
    up to the first that unmounts the component. *)
Fixpoint deliverAll (connection : HubConnection) (es : list HubEvent)
    (s : AppState) : Result AppState :=
  match es with
  | [] => Return s
  | e :: es =>
      match deliver connection e s with
      | Return s' => deliverAll connection es s'
      | Throw error => Throw error
      end
  end.

(** ** A reference session

    Participant P1 enters room R1 from a freshly mounted page and every
    remote call succeeds. *)
Definition P1 : User.t := User.mk "P1" "Ada" None.

Definition R1_fetched : Room.t := Room.mk "R1" ∅.
Definition R1_replies : JoinReplies :=
  {| addRoom := Return (mkResponse true 200 "OK"
                          (Return (JObject [("id", JString "R1")])));
     addUser := Return P1;
     fetchRoom := Return R1_fetched;
     started := Resolved;
     registered := Resolved |}.

(** The page was just mounted: the [setupSignalR] it holds is the one of the
    first render, where [showVotesState] is the initial [false]. *)
Definition joinedR1 : AppState :=
  (handleJoinRoom "R1" "Ada" R1_replies false initialState).1.

(** The connection that [joinedR1] holds. *)
Definition connectionR1 : HubConnection :=
  {| handlersScope := scopeOf initialState |}.

(** The replica of [joinedR1], a second participant who has voted, a join
    patch that names only her and carries a foreign room id, and the replica
    after that patch. *)
Definition roomP1 : Room.t := Room.mk "R1" {[ "P1" := Entry.user P1 ]}.

Definition P2 : User.t := User.mk "P2" "Grace" (Some "5").

Definition patchP2 : Room.t := Room.mk "evil" {[ "P2" := Entry.user P2 ]}.

Definition joinedR1_P2 : AppState := onUserJoined patchP2 joinedR1.

Definition roomP1P2 : Room.t :=
  Room.mk "R1" (<[ "P2" := Entry.user P2 ]> {[ "P1" := Entry.user P1 ]}).

(** A success response with an empty body: [response.json()] rejects. *)
Definition okWithoutBody : Response :=
  mkResponse true 200 "OK" (Throw "Unexpected end of JSON input").

(** A success response whose body is the empty object. *)
Definition okEmptyObject : Response :=
  mkResponse true 200 "OK" (Return (JObject [])).

(** [joinedR1] after the transport gave up and closed the connection. *)
Definition closedR1 : AppState := onclose joinedR1.

(** [joinedR1_P2] after the votes were revealed. *)
Definition revealedR1 : AppState :=
  onVotesRevealed (handlersScope connectionR1) joinedR1_P2.

(** ** Everything that can happen

    The component together with the connections built so far (their
    callbacks may still fire). The join form is on the page only while
    [currentPage] is ['createJoin']; the other local actions are allowed at
    any time, and a join may find any [showVotesState] in its memoised
    [setupSignalR]: both only enlarge the set of reachable states. Nothing
    happens to a component that an event has unmounted. *)
Record World := mkWorld { app : AppState; built : list HubConnection }.

Definition initialWorld : World := mkWorld initialState [].

(** The connection objects after a join from the render [render]:
    [setupSignalR] builds one unless the render already holds one. *)
Definition builtAfterJoin (render : AppState) (capturedShowVotes : bool)
    (cs : list HubConnection) : list HubConnection :=
  match hubConnection render with
  | Some _ => cs
  | None =>
      mkConnection (mkScope (roomId render) (user render) capturedShowVotes)
        :: cs
  end.

Inductive step : World → World → Prop :=
| step_join w newRoomId newUserName replies capturedShowVotes :
    currentPage (app w) = createJoin →
    step w (mkWorld (handleJoinRoom newRoomId newUserName replies
                       capturedShowVotes (app w)).1
                    (builtAfterJoin (app w) capturedShowVotes (built w)))
| step_event w c e s' :
    c ∈ built w →
    deliver c e (app w) = Return s' →
    step w (mkWorld s' (built w))
| step_close w c :
    c ∈ built w →
    step w (mkWorld (onclose (app w)) (built w))
| step_reconnecting w c :
    c ∈ built w →
    step w (mkWorld (onreconnecting (app w)) (built w))
| step_reconnected w c joinRoom :
    c ∈ built w →
    step w (mkWorld (onreconnected c joinRoom (app w)).1 (built w))
| step_vote w vote sendVote :
    step w (mkWorld (handleVote vote sendVote (app w)).1 (built w))
| step_reveal w :
    step w (mkWorld (handleRevealVotes (app w)).1 (built w))
| step_clear w clearAll :
    step w (mkWorld (handleClearVotes clearAll (app w)).1 (built w))
| step_leave w leaveRoom :
    step w (mkWorld (handleLeaveRoom leaveRoom (app w)).1 (built w)).

Definition reachable (w : World) : Prop := rtc step initialWorld w.

(** While the join form is on the page no session is held, and no
    connection's callbacks have captured one. *)
Definition noSessionCaptured (w : World) : Prop :=
  (currentPage (app w) = createJoin →
     roomId (app w) = None ∧ user (app w) = None)
  ∧ ∀ c, c ∈ built w →
      sc_roomId (handlersScope c) = None ∧ sc_user (handlersScope c) = None.

(** What holds between [s] and [s'] for the handlers that leave the page,
    the room id and the participant alone. *)
Definition sameSession (s s' : AppState) : Prop :=
  currentPage s' = currentPage s ∧ roomId s' = roomId s ∧ user s' = user s.

(** ** The control plane: [addUserToRoom] and [fetchRoomData] *)

(** [v.key] for a value [v]: of the values a JSON body parses to, only an
    object can hold the keys read here ([detail], [title], [users]). *)
Definition getProp (key : string) (v : JsValue) : option JsValue :=
  match v with
  | JObject fields => assoc key fields
  | _ => None
  end.

(** [v && v.key], when truthy. *)
Definition truthyProp (key : string) (v : JsValue) : option JsValue :=
  if falsy v then None
  else
    match getProp key v with
    | Some x => if falsy x then None else Some x
    | None => None
    end.

(** [o[key] = v] on the own keys of an object: an existing key keeps its
    place, a new one goes last. *)
Fixpoint setField (key : string) (v : JsValue)
    (fields : list (string * JsValue)) : list (string * JsValue) :=
  match fields with
  | [] => [(key, v)]
  | (k, x) :: rest =>
      if String.eqb k key then (k, v) :: rest
      else (k, x) :: setField key v rest
  end.

(** What [fetchRoomData] hands back: the parsed body with its [users]
    property set. An array body comes back as that array carrying an own
    property [users], an empty object. *)
Inductive RoomJson :=
| ObjectRoom (fields : list (string * JsValue))
| ArrayRoom (items : list JsValue).

(** The [TypeError]s of [data.users = data.users || {}] on a body that is
    [null] (the read fails) or another primitive (the write fails: module
    code is strict). The wording is the engine's. *)
Definition cannotReadUsers : string :=
  "Cannot read properties of null (reading 'users')".

Definition cannotCreateUsers : string :=
  "Cannot create property 'users' on a primitive value".

Section ControlPlane.

(** The conversion of a value to a string that a template literal applies
    ([`${v}`]); it is the language's, and taken as given. *)
Variable toText : JsValue → string.


(** [const fetchRoomData = async (roomIdToFetch) => {
       try {
         const response = await fetch(...);
         if (!response.ok) {
           let errorDetail = `HTTP ${response.status} ${response.statusText}`;
           try {
             const errorData = await response.json();
             if (errorData && errorData.detail) errorDetail += ` - ${errorData.detail}`;
             else if (errorData && errorData.title) errorDetail += ` - ${errorData.title}`;
           } catch (parseError) { /* Ignore */ }
           throw new Error(`Failed to fetch room data: ${errorDetail}`);
         }
         const data = await response.json();
         data.users = data.users || {};
         return data;
       } catch (error) { console.error(...); throw error; } }] *)
Definition fetchRoomData (roomIdToFetch : string)
    (fetched : Result Response) : Result RoomJson :=
  match fetched with
  | Throw e => Throw e
  | Return response =>
      if negb (ok response) then
        let errorDetail :=
          "HTTP " +:+ pretty (status response) +:+ " " +:+ statusText response in
        let errorDetail :=
          match json response with
          | Throw _ => errorDetail
          | Return errorData =>
              match truthyProp "detail" errorData with
              | Some detail => errorDetail +:+ " - " +:+ toText detail
              | None =>
                  match truthyProp "title" errorData with
                  | Some title => errorDetail +:+ " - " +:+ toText title
                  | None => errorDetail
                  end
              end
          end in
        Throw ("Failed to fetch room data: " +:+ errorDetail)
      else
        match json response with
        | Throw e => Throw e
        | Return JNull => Throw cannotReadUsers
        | Return (JBool _) | Return (JNumber _) | Return (JString _) =>
            Throw cannotCreateUsers
        | Return (JArray items) => Return (ArrayRoom items)
        | Return (JObject fields) =>
            let users :=
              match assoc "users" fields with
              | Some users => if falsy users then JObject [] else users
              | None => JObject []
              end in
            Return (ObjectRoom (setField "users" users fields))
        end
  end.

End ControlPlane.

(** ** The presentational components *)

(** [const FIBONACCI_NUMBERS = ['0', '1', '2', '3', '5', '8', '13', '21', '?' ];] *)
Definition FIBONACCI_NUMBERS : list string :=
  ["0"; "1"; "2"; "3"; "5"; "8"; "13"; "21"; "?"].

(** What the [CardContent] of a [UserCard] shows: a text, gray or white, or
    the green check mark. *)
Inductive CardFace :=
| FaceText (text : string) (gray : bool)
| CheckCircle.

(** What a [UserCard] shows: the name in its title, the highlighted border
    of the current user, and the content. *)
Record Card := mkCard {
  card_name : string;
  card_highlighted : bool;
  card_face : CardFace
}.

(** [const UserCard = ({ user, isCurrent, showVotes }) => ...
       <CardTitle>{user.name}</CardTitle>
       {showVotes
          ? <div className={cn(..., user.vote === null ? "text-gray-400" : "text-white")}>
              {user.vote ?? '-'}</div>
          : (user.vote !== null ? <CheckCircle .../>
                                : <div className="... text-gray-400">-</div>)}] *)
Definition UserCard (user : User.t) (isCurrent showVotes : bool) : Card :=
  {| card_name := User.name user;
     card_highlighted := isCurrent;
     card_face :=
       if showVotes then
         FaceText (default "-" (User.vote user))
                  (bool_decide (User.vote user = None))
       else
         match User.vote user with
         | Some _ => CheckCircle
         | None => FaceText "-" true
         end |}.

(** A click on the [i]-th button of [VoteSelector]:
    [FIBONACCI_NUMBERS.map(number =>
       <Button onClick={() => onVote(number)} disabled={!isVoting}>...)],
    with [onVote={handleVote}] and [isVoting={isVoting}]; the selector is on
    the page with [PlanningPokerPage]. *)
Definition clickVote (i : nat) (sendVote : Outcome) (s : AppState)
  : AppState * list HubCall :=
  match pageRoom s, FIBONACCI_NUMBERS !! i with
  | Some _, Some number =>
      if isVoting s then handleVote number sendVote s else (s, [])
  | _, _ => (s, [])
  end.

(** The four [useState] variables of [CreateJoinRoomPage]. *)
Record JoinForm := mkForm {
  form_roomId : string;
  form_userName : string;
  form_loading : bool;
  form_error : option string
}.

Definition emptyForm : JoinForm := mkForm "" "" false None.

Section JoinFormHandlers.

(** [String.prototype.trim]; it is the language's, and taken as given. *)
Variable trim : string → string.

(** [const handleJoin = async () => {
       setError(null);
       if (!userName.trim()) { setError('Please enter your name'); return; }
       if (!roomId.trim()) { setError('Please enter a Room ID'); return; }
       setLoading(true);
       try { onJoinRoom(roomId.trim(), userName.trim()); }
       catch (err) { setError(err.message || ...); setLoading(false); } }]
    The second component is the call of [onJoinRoom], if one is made.
    [onJoinRoom] is [handleJoinRoom], an [async] function that is not
    awaited here: the call returns a promise and never throws, so the
    [catch] does not run. *)
Definition handleJoin (f : JoinForm) : JoinForm * option (string * string) :=
  if String.eqb (trim (form_userName f)) "" then
    (mkForm (form_roomId f) (form_userName f) (form_loading f)
            (Some "Please enter your name"), None)
  else if String.eqb (trim (form_roomId f)) "" then
    (mkForm (form_roomId f) (form_userName f) (form_loading f)
            (Some "Please enter a Room ID"), None)
  else
    (mkForm (form_roomId f) (form_userName f) true None,
     Some (trim (form_roomId f), trim (form_userName f))).

(** A click on the enter button:
    [<Button onClick={handleJoin} disabled={loading}>]. *)
Definition clickEnterRoom (f : JoinForm)
  : JoinForm * option (string * string) :=
  if form_loading f then (f, None) else handleJoin f.

End JoinFormHandlers.

(** ** What the events do to the set of participants *)

(** What the replica holds under [userId] after a vote for it. *)
Definition votedEntry (userId vote : string) (users : gmap string Entry.t)
  : option Entry.t :=
  match users !! userId with
  | Some e => Some (Entry.withVote (Some vote) e)
  | None =>
      if inheritsMember userId && negb (String.eqb userId "__proto__")
      then Some (Entry.bare (Some vote))
      else None
  end.

(** The own keys of the replica after an event, from those before; [None]
    when the event unmounts the component. *)
Definition idsAfter (ids : gset string) (e : HubEvent)
  : option (gset string) :=
  match e with
  | UserJoined updatedRoomData _ =>
      Some (dom (Room.users updatedRoomData) ∪ ids)
  | UserLeft userId _ => Some (ids ∖ {[userId]})
  | VoteReceived userId _ =>
      if inheritsMember userId && negb (String.eqb userId "__proto__")
      then Some ({[userId]} ∪ ids)
      else Some ids
  | VotesRevealed => Some ids
  | AllVotesCleared =>
      if bool_decide ("hasOwnProperty" ∈ ids) then None
      else Some (ids ∖ {["__proto__"]})
  end.

Fixpoint idsAfterAll (ids : gset string) (es : list HubEvent)
  : option (gset string) :=
  match es with
  | [] => Some ids
  | e :: es =>
      match idsAfter ids e with
      | Some ids' => idsAfterAll ids' es
      | None => None
      end
  end.

(** Every entry is a user and sits under its own id ([key={user.id}] and
    [user.id === currentUserId] rely on it). *)
Definition wellKeyed (users : gmap string Entry.t) : Prop :=
  ∀ k e, users !! k = Some e → ∃ u, e = Entry.user u ∧ User.id u = k.

(** An event that keeps it so: a join whose patch is so, and a vote whose
    id is not the name of a member of [Object.prototype]. *)
Definition wellKeyedEvent (e : HubEvent) : Prop :=
  match e with
  | UserJoined updatedRoomData _ => wellKeyed (Room.users updatedRoomData)
  | VoteReceived userId _ => inheritsMember userId = false
  | _ => True
  end.

(** ** More reference values *)


Definition serverErrorNoBody : Response :=
  mkResponse false 500 "Internal Server Error"
    (Throw "Unexpected end of JSON input").

(** A room snapshot without a [users] field. *)
Definition okRoomWithoutUsers : Response :=
  mkResponse true 200 "OK" (Return (JObject [("id", JString "R1")])).

(** A text conversion that is right on strings. *)
Definition textOfString (v : JsValue) : string :=
  match v with
  | JString s => s
  | _ => ""
  end.

(** [joinedR1] after a 'reconnected': the session is gone, the connection
    handle is back. *)
Definition reconnectedR1 : AppState :=
  (onreconnected connectionR1 Resolved joinedR1).1.

(** A trim that removes nothing, and a filled-in form. *)
Definition noTrim (s : string) : string := s.

Definition filledForm : JoinForm := mkForm "R1" "Ada" false None.

(** Two participants whose ids are names of members of
    [Object.prototype], in payloads as the server can send them, and the
    session [joinedR1] after each has joined. *)
Definition Mallory : User.t := User.mk "hasOwnProperty" "Mallory" None.

Definition Trudy : User.t := User.mk "__proto__" "Trudy" (Some "8").

Definition patchMallory : Room.t :=
  Room.mk "R1" {[ "hasOwnProperty" := Entry.user Mallory ]}.

Definition patchTrudy : Room.t :=
  Room.mk "R1" {[ "__proto__" := Entry.user Trudy ]}.

Definition joinedR1_Mallory : AppState := onUserJoined patchMallory joinedR1.

Definition joinedR1_Trudy : AppState := onUserJoined patchTrudy joinedR1.

(** ** Proof automation *)

Ltac unfold_setters :=
  unfold setCurrentPage, setRoomId, setUser, setRoom, setHubConnection,
    setSelectedVote, setError, setIsVoting, setIsLoading, setShowVotesState.

Ltac simpl_state := unfold_setters; cbn [currentPage roomId user room
  hubConnection selectedVote error isVoting isLoading showVotesState].

(** * Properties *)

(** ** The replica reducers *)

Section ReplicaFacts.
Implicit Types (r prev patch : Room.t) (m : gmap string Entry.t).
Implicit Types (e : Entry.t) (k userId : string).

Lemma withUsers_same r : Room.withUsers (Room.users r) r = r.
Proof. by destruct r. Qed.

Lemma jsAssign_ordinary {A} k (v : A) (o : gmap string A) :
  k ≠ "__proto__" → jsAssign k v o = <[k := v]> o.
Proof.
  intros Hk. unfold jsAssign. by destruct (String.eqb_spec k "__proto__").
Qed.

Lemma jsAssign_own {A} k (v : A) (o : gmap string A) :
  is_Some (o !! k) → jsAssign k v o = <[k := v]> o.
Proof.
  intros [x Hx]. unfold jsAssign.
  rewrite bool_decide_eq_false_2 by congruence. by rewrite andb_false_r.
Qed.

Lemma jsAssign_swallowed {A} (v : A) (o : gmap string A) :
  o !! "__proto__" = None → jsAssign "__proto__" v o = o.
Proof. intros Ho. unfold jsAssign. by rewrite bool_decide_eq_true_2. Qed.

Lemma inheritsMember_false_not_proto k :
  inheritsMember k = false → k ≠ "__proto__".
Proof. intros Hk ->. by vm_compute in Hk. Qed.

(** The loop, outside the one replica on which it throws. *)
Lemma clearLoop_returns m :
  m !! "hasOwnProperty" = None →
  Replica.clearLoop m
  = Return (Entry.withVote None <$> delete "__proto__" m).
Proof.
  intros Hm. unfold Replica.clearLoop. rewrite Hm.
  apply (map_fold_weak_ind
           (λ acc m,
              acc = Return (Entry.withVote None <$> delete "__proto__" m))).
  - by rewrite delete_empty, fmap_empty.
  - intros k e m' acc Hk ->. f_equal.
    destruct (decide (k = "__proto__")) as [->|Hne].
    + rewrite delete_insert_eq, jsAssign_swallowed; [done|].
      by rewrite lookup_fmap, lookup_delete_eq.
    + by rewrite jsAssign_ordinary, delete_insert_ne, fmap_insert.
Qed.

(** The loop on a replica that has an own key "hasOwnProperty". *)
Lemma clearLoop_throws m e :
  m !! "hasOwnProperty" = Some e →
  Replica.clearLoop m = Throw hasOwnPropertyNotAFunction.
Proof.
  intros Hm. unfold Replica.clearLoop. rewrite Hm.
  assert (m ≠ ∅) as Hne by (intros ->; by rewrite lookup_empty in Hm).
  match goal with
  | |- map_fold ?f ?b m = _ =>
      destruct (map_fold_weak_ind
                  (λ acc m', (m' = ∅ ∧ acc = b)
                             ∨ acc = Throw hasOwnPropertyNotAFunction)
                  f b) with m as [[? _]|?]
  end; try done.
  - by left.
  - intros k x m' acc _ [[_ ->]| ->]; by right.
Qed.

Lemma applyJoin_dom prev patch merged :
  Replica.applyJoin patch (Some prev) = Some merged →
  dom (Room.users merged) = dom (Room.users patch) ∪ dom (Room.users prev).
Proof. intros [= <-]. cbn. apply dom_union_L. Qed.

Lemma applyLeave_unknown prev userId :
  Room.users prev !! userId = None →
  Replica.applyLeave userId (Some prev) = Some prev.
Proof.
  intros Hk. unfold Replica.applyLeave.
  by rewrite delete_id, withUsers_same.
Qed.

(** A vote for an id that the replica does not hold and that names no
    member of [Object.prototype] is dropped. *)
Lemma applyVote_unknown prev userId vote :
  Room.users prev !! userId = None →
  inheritsMember userId = false →
  Replica.applyVote userId vote (Some prev) = Some prev.
Proof.
  intros Hk Hp. unfold Replica.applyVote. by rewrite Hk, Hp, withUsers_same.
Qed.

(** A vote for an id that the replica holds goes to that entry. *)
Lemma applyVote_known prev userId vote e :
  Room.users prev !! userId = Some e →
  Replica.applyVote userId vote (Some prev)
  = Some (Room.withUsers
            (<[userId := Entry.withVote (Some vote) e]> (Room.users prev))
            prev).
Proof.
  intros Hk. unfold Replica.applyVote. rewrite Hk.
  by rewrite jsAssign_own by eauto.
Qed.

(** A vote for an id that the replica does not hold but that names a member
    of [Object.prototype] stores an entry that is no user. *)
Lemma applyVote_inherited prev userId vote :
  Room.users prev !! userId = None →
  inheritsMember userId = true → userId ≠ "__proto__" →
  Replica.applyVote userId vote (Some prev)
  = Some (Room.withUsers
            (<[userId := Entry.bare (Some vote)]> (Room.users prev)) prev).
Proof.
  intros Hk Hp Hne. unfold Replica.applyVote. rewrite Hk, Hp.
  by rewrite jsAssign_ordinary.
Qed.

Lemma everyVoteNull_true r :
  (∀ k u, Room.users r !! k = Some u → Entry.vote u = None) →
  everyVoteNull r = true.
Proof.
  intros Hall. unfold everyVoteNull, Object_values.
  apply forallb_forall. intros u Hin%list_elem_of_In.
  apply list_elem_of_fmap in Hin as [[k u'] [-> Hin]].
  apply elem_of_map_to_list in Hin. apply bool_decide_eq_true. eauto.
Qed.

Lemma everyVoteNull_false r k u v :
  Room.users r !! k = Some u → Entry.vote u = Some v →
  everyVoteNull r = false.
Proof.
  intros Hk Hv. apply not_true_is_false. intros Hall.
  unfold everyVoteNull, Object_values in Hall.
  rewrite forallb_forall in Hall.
  specialize (Hall u). rewrite bool_decide_eq_true in Hall.
  rewrite Hall in Hv; [done|].
  apply list_elem_of_In, list_elem_of_fmap. exists (k, u).
  split; [done|]. by apply elem_of_map_to_list.
Qed.

End ReplicaFacts.

(** C2: on 'UserJoined', with a replica [prev] in place, the new replica
    keeps [prev]'s room id whatever id the patch carries, keeps every
    participant of [prev] that the patch does not mention, and holds every
    participant the patch names. *)
Theorem C2_join_merges_patch (s : AppState) (prev patch : Room.t) :
  room s = Some prev →
  ∃ merged,
    room (onUserJoined patch s) = Some merged
    ∧ Room.id merged = Room.id prev
    ∧ (∀ k u, Room.users prev !! k = Some u →
              Room.users patch !! k = None →
              Room.users merged !! k = Some u)
    ∧ (∀ k u, Room.users patch !! k = Some u →
              Room.users merged !! k = Some u).
Proof.
  intros Hroom. unfold onUserJoined. simpl_state. rewrite Hroom. cbn.
  eexists; split; [reflexivity|]. cbn. split; [done|]. split.
  - intros k u Hprev Hpatch. by rewrite lookup_union_r.
  - intros k u Hpatch. by apply lookup_union_Some_l.
Qed.

Lemma C2_join_merges_patch_witness :
  room joinedR1 = Some roomP1
  ∧ ∃ merged,
      room (onUserJoined patchP2 joinedR1) = Some merged
      ∧ Room.id merged = "R1"
      ∧ (∀ k u, Room.users roomP1 !! k = Some u →
                Room.users patchP2 !! k = None →
                Room.users merged !! k = Some u)
      ∧ (∀ k u, Room.users patchP2 !! k = Some u →
                Room.users merged !! k = Some u).
Proof.
  split; [reflexivity|].
  apply (C2_join_merges_patch joinedR1 roomP1 patchP2). reflexivity.
Defined.

(** C6: with Mallory, whose id is "hasOwnProperty", in the replica,
    'AllVotesCleared' throws and the component is unmounted: nothing is
    reset. The same happens in the session [joinedR1] itself once a
    'VoteReceived' for the id "hasOwnProperty" has come in. With Trudy,
    whose id is "__proto__", in the replica, 'AllVotesCleared' drops her
    from it. The claim has every participant kept, on every replica. *)
Theorem C6_clear_all_breaks_on_member_names :
  room joinedR1_Mallory
  = Some (Room.mk "R1"
            (<["hasOwnProperty" := Entry.user Mallory]>
               {["P1" := Entry.user P1]}))
  ∧ deliver connectionR1 AllVotesCleared joinedR1_Mallory
    = Throw hasOwnPropertyNotAFunction
  ∧ deliverAll connectionR1
      [VoteReceived "hasOwnProperty" "8"; AllVotesCleared] joinedR1
    = Throw hasOwnPropertyNotAFunction
  ∧ room joinedR1_Trudy
    = Some (Room.mk "R1"
              (<["__proto__" := Entry.user Trudy]> {["P1" := Entry.user P1]}))
  ∧ ∃ cleared,
      deliver connectionR1 AllVotesCleared joinedR1_Trudy = Return cleared
      ∧ room cleared = Some (Room.mk "R1" {["P1" := Entry.user P1]}).
Proof.
  split; [by vm_compute|]. split; [by vm_compute|]. split; [by vm_compute|].
  split; [by vm_compute|]. eexists. split; by vm_compute.
Qed.

(** C7: the replica of [joinedR1] holds no participant "toString"; a
    'VoteReceived' for that id is not dropped, as the claim has it, but
    stores a new entry under it, an object with a vote and neither id nor
    name. *)
Theorem C7_vote_for_toString_is_stored :
  room joinedR1 = Some roomP1
  ∧ Room.users roomP1 !! "toString" = None
  ∧ room (onVoteReceived "toString" "8" joinedR1)
    = Some (Room.mk "R1"
              (<["toString" := Entry.bare (Some "8")]>
                 {["P1" := Entry.user P1]})).
Proof. by vm_compute. Qed.

(** C8: 'UserLeft' deletes the entry of the given id and nothing else; for an
    id the replica does not hold, the replica is left as it is. The reducer
    is a total function. *)
Theorem C8_user_left (s : AppState) (r : Room.t) (userId : string) :
  room s = Some r →
  ∃ r', room (onUserLeft userId s) = Some r'
    ∧ Room.id r' = Room.id r
    ∧ Room.users r' !! userId = None
    ∧ (∀ k, k ≠ userId → Room.users r' !! k = Room.users r !! k)
    ∧ (Room.users r !! userId = None → r' = r).
Proof.
  intros Hroom. unfold onUserLeft. simpl_state. rewrite Hroom. cbn.
  eexists; split; [reflexivity|]. cbn. split; [done|]. split.
  { apply lookup_delete_eq. }
  split.
  - intros k Hne. by rewrite lookup_delete_ne.
  - intros Hk. by rewrite delete_id, withUsers_same.
Qed.

Lemma C8_user_left_witness :
  room joinedR1_P2 = Some roomP1P2
  ∧ ∃ r', room (onUserLeft "P2" joinedR1_P2) = Some r'
      ∧ Room.id r' = Room.id roomP1P2
      ∧ Room.users r' !! "P2" = None
      ∧ (∀ k, k ≠ "P2" → Room.users r' !! k = Room.users roomP1P2 !! k)
      ∧ (Room.users roomP1P2 !! "P2" = None → r' = roomP1P2).
Proof.
  split; [vm_compute; reflexivity|].
  apply (C8_user_left joinedR1_P2 roomP1P2 "P2"). vm_compute; reflexivity.
Defined.

(** C9: while every participant of the replica has an absent vote, the
    reveal and the clear button are disabled, and a click on either changes
    no state and starts no remote operation, in particular neither
    RevealVotes nor ClearAllVotes. *)
Theorem C9_no_votes_no_reveal_no_clear (s : AppState) (r : Room.t) :
  room s = Some r →
  (∀ k u, Room.users r !! k = Some u → Entry.vote u = None) →
  revealDisabled r = true
  ∧ clearDisabled r = true
  ∧ clickReveal s = (s, [])
  ∧ (∀ clearAll, clickClear clearAll s = (s, [])).
Proof.
  intros Hroom Hall.
  pose proof (everyVoteNull_true r Hall) as Hevery.
  unfold revealDisabled, clearDisabled. repeat (split; [done|]).
  assert (pageRoom s = None ∨ pageRoom s = Some r) as [Hp|Hp].
  { unfold pageRoom. rewrite Hroom.
    destruct (currentPage s), (user s); auto. }
  - unfold clickReveal, clickClear. rewrite Hp. done.
  - unfold clickReveal, clickClear, revealDisabled, clearDisabled.
    rewrite Hp, Hevery. done.
Qed.

Lemma C9_no_votes_no_reveal_no_clear_witness :
  room joinedR1 = Some roomP1
  ∧ (∀ k u, Room.users roomP1 !! k = Some u → Entry.vote u = None)
  ∧ revealDisabled roomP1 = true
  ∧ clearDisabled roomP1 = true
  ∧ clickReveal joinedR1 = (joinedR1, [])
  ∧ (∀ clearAll, clickClear clearAll joinedR1 = (joinedR1, [])).
Proof.
  assert (∀ k u, Room.users roomP1 !! k = Some u → Entry.vote u = None)
    as Hall.
  { intros k u. unfold roomP1. cbn.
    intros [_ <-]%lookup_singleton_Some. reflexivity. }
  split; [reflexivity|]. split; [exact Hall|].
  apply (C9_no_votes_no_reveal_no_clear joinedR1 roomP1);
    [reflexivity | exact Hall].
Defined.

(** ** The control plane *)

Lemma falsy_stringId data : falsy data = true → stringId data = None.
Proof. by destruct data. Qed.

Lemma createRoom_ok roomId response data :
  ok response = true → json response = Return data →
  createRoom roomId (Return response)
  = Return (default roomId (stringId data)).
Proof.
  intros Hok Hjson. unfold createRoom. rewrite Hok, Hjson. cbn.
  destruct (falsy data) eqn:Hf.
  - by rewrite falsy_stringId.
  - by destruct (stringId data).
Qed.

(** A failure response never yields a room id. *)
Lemma createRoom_not_ok roomId response :
  ok response = false →
  ∃ e, createRoom roomId (Return response) = Throw e.
Proof.
  intros Hok. unfold createRoom. rewrite Hok. cbn.
  destruct (json response); eauto.
Qed.

(** C10, as stated, fails: a success response whose body holds no string
    [id] because it is not JSON at all makes [createRoom] fail instead of
    returning the requested id. *)
Lemma C10_success_without_json_fails :
  ok okWithoutBody = true
  ∧ (∀ data, json okWithoutBody = Return data → stringId data = None)
  ∧ createRoom "R1" (Return okWithoutBody)
    = Throw "Unexpected end of JSON input".
Proof. split; [done|]. split; [intros data [=]|done]. Qed.

(** C10, amended: on a success response whose body parses as JSON,
    [createRoom] returns a room id: the body's [id] when that is a string,
    and otherwise the id the caller asked for. *)
Theorem C10_create_room_falls_back
    (roomId : string) (response : Response) (data : JsValue) :
  ok response = true →
  json response = Return data →
  ∃ id, createRoom roomId (Return response) = Return id
    ∧ (stringId data = None → id = roomId)
    ∧ (∀ i, stringId data = Some i → id = i).
Proof.
  intros Hok Hjson. rewrite (createRoom_ok _ _ data) by done.
  eexists; split; [reflexivity|].
  split; [by intros ->|by intros i ->].
Qed.

Lemma C10_create_room_falls_back_witness :
  ok okEmptyObject = true
  ∧ json okEmptyObject = Return (JObject [])
  ∧ ∃ id, createRoom "R1" (Return okEmptyObject) = Return id
      ∧ (stringId (JObject []) = None → id = "R1")
      ∧ (∀ i, stringId (JObject []) = Some i → id = i).
Proof.
  split; [reflexivity|]. split; [reflexivity|].
  apply (C10_create_room_falls_back "R1" okEmptyObject (JObject []));
    reflexivity.
Defined.

(** ** Voting *)

Lemma orElse_nonempty a b : b ≠ "" → orElse a b ≠ "".
Proof.
  intros Hb. unfold orElse. destruct (String.eqb_spec a ""); congruence.
Qed.

Lemma truthy_Some r : r ≠ "" → truthy (Some r) = true.
Proof. intros Hr. cbn. by destruct (String.eqb_spec r ""). Qed.

Lemma voteRejected_closed s : isVoting s = false → voteRejected s = true.
Proof.
  intros Hv. unfold voteRejected. rewrite Hv. cbn.
  by rewrite !orb_true_r.
Qed.

Lemma rollback_selection v e s :
  setSelectedVote None (setError e (setSelectedVote (Some v) s))
  = setSelectedVote None (setError e s).
Proof. done. Qed.

(** C4, as stated, fails: in [closedR1] voting is open ([canVote] holds) but
    the connection is gone, and [handleVote] neither records the selection
    nor invokes SendVote. *)
Lemma C4_can_vote_but_no_connection :
  canVote closedR1 = true
  ∧ hubConnection closedR1 = None
  ∧ handleVote_begin "5" closedR1 = None
  ∧ handleVote "5" Resolved closedR1 = (closedR1, []).
Proof. by vm_compute. Qed.

(** C4, amended: [handleVote] does nothing, locally or remotely, when
    [canVote] is false; when [canVote] is true and the room id, the self
    participant and the connection are all known, it records the selection
    and then invokes SendVote with that room id, participant id and value;
    if the invocation fails the selection is set back to absent and a
    non-empty error message is set, the rest of the state being as before
    the vote. *)
Theorem C4_vote_guarded_optimistic (s : AppState) (v : string) :
  (canVote s = false →
     handleVote_begin v s = None
     ∧ ∀ sendVote, handleVote v sendVote s = (s, []))
  ∧ (∀ r u c,
       canVote s = true → roomId s = Some r → r ≠ "" →
       user s = Some u → hubConnection s = Some c →
       let call := SendVote r (User.id u) v in
       handleVote_begin v s = Some (setSelectedVote (Some v) s, call)
       ∧ handleVote v Resolved s = (setSelectedVote (Some v) s, [call])
       ∧ ∀ message, ∃ shown,
           handleVote v (Rejected message) s
           = (setSelectedVote None (setError (Some shown) s), [call])
           ∧ shown ≠ "").
Proof.
  split.
  - unfold canVote. intros Hv%voteRejected_closed.
    unfold handleVote, handleVote_begin. by rewrite Hv.
  - unfold canVote. intros r u c Hv Hr Hne Hu Hc.
    set (call := SendVote r (User.id u) v).
    assert (handleVote_begin v s
            = Some (setSelectedVote (Some v) s, call)) as Hbegin.
    { unfold handleVote_begin, voteRejected.
      by rewrite Hr, Hu, Hc, Hv, (truthy_Some r Hne). }
    split; [done|]. unfold handleVote. rewrite Hbegin.
    split; [done|]. intros message.
    exists (orElse message "Failed to send vote"). split.
    + cbn [handleVote_settle]. by rewrite rollback_selection.
    + by apply orElse_nonempty.
Qed.

Lemma C4_vote_guarded_optimistic_witness :
  (canVote (setIsVoting false joinedR1) = false
   ∧ handleVote_begin "5" (setIsVoting false joinedR1) = None
   ∧ handleVote "5" Resolved (setIsVoting false joinedR1)
     = (setIsVoting false joinedR1, []))
  ∧ canVote joinedR1 = true
  ∧ roomId joinedR1 = Some "R1"
  ∧ user joinedR1 = Some P1
  ∧ hubConnection joinedR1 = Some connectionR1
  ∧ handleVote "5" Resolved joinedR1
    = (setSelectedVote (Some "5") joinedR1, [SendVote "R1" "P1" "5"])
  ∧ selectedVote (handleVote "5" (Rejected "") joinedR1).1 = None.
Proof.
  pose proof (C4_vote_guarded_optimistic (setIsVoting false joinedR1) "5")
    as [Hclosed _].
  pose proof (C4_vote_guarded_optimistic joinedR1 "5") as [_ Hopen].
  destruct (Hclosed eq_refl) as [Hbegin Hnone].
  destruct (Hopen "R1" P1 connectionR1) as (_ & Hsent & Hfailed);
    [reflexivity | reflexivity | discriminate | reflexivity | reflexivity |].
  split; [split; [reflexivity | split; [exact Hbegin | apply Hnone]]|].
  split; [reflexivity|]. split; [reflexivity|]. split; [reflexivity|].
  split; [reflexivity|]. split; [exact Hsent|].
  destruct (Hfailed "") as (shown & -> & _). reflexivity.
Defined.

(** ** The visibility machine *)

(** A second 'VotesRevealed' on the same connection changes nothing: the
    callback writes the negation of a captured constant. *)
Lemma onVotesRevealed_idempotent scope s :
  onVotesRevealed scope (onVotesRevealed scope s) = onVotesRevealed scope s.
Proof. done. Qed.

Lemma onVotesRevealed_visibility scope s :
  sc_showVotesState scope = false →
  visibility (onVotesRevealed scope s) = Revealed
  ∧ canVote (onVotesRevealed scope s) = false.
Proof.
  intros Hsc. unfold visibility, canVote, onVotesRevealed. simpl_state.
  by rewrite Hsc.
Qed.

(** On a connection whose callbacks captured hidden votes, the events keep
    [canVote] equal to "the votes are hidden". *)
Lemma deliver_canVote_iff_collecting c e s s' :
  sc_showVotesState (handlersScope c) = false →
  isVoting s = negb (showVotesState s) →
  deliver c e s = Return s' →
  isVoting s' = negb (showVotesState s').
Proof.
  intros Hsc Hinv. destruct e; cbn [deliver];
    unfold onUserJoined, onUserLeft, onVoteReceived, onVotesRevealed,
      onAllVotesCleared.
  1-4: intros [= <-]; simpl_state; by rewrite ?Hsc.
  destruct (Replica.applyClearAll (room s)); [|done].
  intros [= <-]. by simpl_state.
Qed.

Lemma deliverAll_canVote_iff_collecting c es s s' :
  sc_showVotesState (handlersScope c) = false →
  isVoting s = negb (showVotesState s) →
  deliverAll c es s = Return s' →
  isVoting s' = negb (showVotesState s').
Proof.
  intros Hsc. revert s. induction es as [|e es IH]; intros s Hinv; cbn.
  - by intros [= <-].
  - destruct (deliver c e s) as [s1|] eqn:He; [|done].
    apply IH. by eapply deliver_canVote_iff_collecting.
Qed.

(** C1: in the session [joinedR1] the votes start hidden and voting open;
    the first 'VotesRevealed' reveals the votes and closes voting; the
    second leaves the votes revealed, where the claim has them hidden
    again. *)
Theorem C1_second_reveal_does_not_toggle :
  hubConnection joinedR1 = Some connectionR1
  ∧ visibility joinedR1 = Collecting
  ∧ canVote joinedR1 = true
  ∧ ∃ once twice,
      deliverAll connectionR1 [VotesRevealed] joinedR1 = Return once
      ∧ visibility once = Revealed
      ∧ canVote once = false
      ∧ deliverAll connectionR1 [VotesRevealed; VotesRevealed] joinedR1
        = Return twice
      ∧ visibility twice = Revealed
      ∧ canVote twice = false.
Proof.
  split; [by vm_compute|]. split; [by vm_compute|]. split; [by vm_compute|].
  eexists _, _. split; [reflexivity|]. split; [by vm_compute|].
  split; [by vm_compute|]. split; [reflexivity|]. split; by vm_compute.
Qed.

(** ** Leaving *)

(** After [handleLeaveRoom] the state is the initial one, except that
    [showVotesState] is what it was. *)
Lemma handleLeaveRoom_state leaveRoom s :
  (handleLeaveRoom leaveRoom s).1
  = setShowVotesState (showVotesState s) initialState.
Proof.
  unfold handleLeaveRoom, handleLeaveRoom_in.
  destruct s as [? ? ? ? hub ? ? ? ? ?]. cbn [hubConnection].
  by destruct hub.
Qed.

(** A failed LeaveRoom does not change where the state ends up. *)
Lemma handleLeaveRoom_failure_tolerated message s :
  (handleLeaveRoom (Rejected message) s).1
  = (handleLeaveRoom Resolved s).1.
Proof. by rewrite !handleLeaveRoom_state. Qed.

(** It does make the handler skip its own [connection.stop()]. *)
Lemma handleLeaveRoom_calls leaveRoom s c r u :
  hubConnection s = Some c → roomId s = Some r → r ≠ "" → user s = Some u →
  (handleLeaveRoom leaveRoom s).2
  = match leaveRoom with
    | Resolved => [LeaveRoom r (User.id u); Stop]
    | Rejected _ => [LeaveRoom r (User.id u)]
    end.
Proof.
  intros Hc Hr Hne Hu. unfold handleLeaveRoom, handleLeaveRoom_in, leaveCalls.
  by rewrite Hc, Hr, Hu, (truthy_Some r Hne).
Qed.

Lemma staleLeave_state scope s :
  staleLeave scope s
  = (setHubConnection (hubConnection s)
       (setShowVotesState (showVotesState s) initialState), []).
Proof. done. Qed.

(** C3: leaving [revealedR1], where the votes are revealed, clears the room
    id, the self participant, the connection handle, the replica and the
    selection and reopens voting, also when LeaveRoom fails; but the votes
    stay revealed, where the claim has the visibility machine back in
    Collecting with the votes hidden. *)
Theorem C3_leave_keeps_votes_revealed :
  roomId revealedR1 = Some "R1"
  ∧ user revealedR1 = Some P1
  ∧ visibility revealedR1 = Revealed
  ∧ (handleLeaveRoom Resolved revealedR1).1
    = setShowVotesState true initialState
  ∧ (handleLeaveRoom (Rejected "hub unreachable") revealedR1).1
    = setShowVotesState true initialState
  ∧ canVote (handleLeaveRoom Resolved revealedR1).1 = true
  ∧ visibility (handleLeaveRoom Resolved revealedR1).1 = Revealed.
Proof. by vm_compute. Qed.

(** ** Reconnecting *)

Lemma onreconnected_no_session c joinRoom s :
  sc_roomId (handlersScope c) = None →
  onreconnected c joinRoom s
  = (setHubConnection (Some c)
       (setShowVotesState (showVotesState s) initialState), []).
Proof. intros Hsc. unfold onreconnected. by rewrite Hsc. Qed.

(** When the callbacks did capture a session, the re-join is invoked with
    the captured room id and participant. *)
Lemma onreconnected_captured_session c r u s :
  sc_roomId (handlersScope c) = Some r → r ≠ "" →
  sc_user (handlersScope c) = Some u →
  onreconnected c Resolved s
  = (setHubConnection (Some c) (setError None s), [JoinRoom r u]).
Proof.
  intros Hr Hne Hu. unfold onreconnected.
  by rewrite Hr, Hu, (truthy_Some r Hne).
Qed.

Lemma handleJoinRoom_page newRoomId newUserName replies captured s :
  let s' := (handleJoinRoom newRoomId newUserName replies captured s).1 in
  currentPage s' = planningPoker ∨ (roomId s' = None ∧ user s' = None).
Proof.
  cbn zeta. unfold handleJoinRoom, setupSignalR, joinFailed.
  destruct (createRoom newRoomId (addRoom replies)); [|destruct (hubConnection s); auto].
  destruct (addUser replies); [|destruct (hubConnection s); auto].
  destruct (fetchRoom replies); [|destruct (hubConnection s); auto].
  destruct (hubConnection s); [auto|].
  destruct (started replies); [|auto].
  destruct (registered replies); auto.
Qed.

Lemma deliver_sameSession c e s s' :
  deliver c e s = Return s' → sameSession s s'.
Proof.
  destruct e; cbn [deliver]; try by intros [= <-].
  unfold onAllVotesCleared.
  destruct (Replica.applyClearAll (room s)); [|done]. by intros [= <-].
Qed.

Lemma handleVote_sameSession vote sendVote s :
  sameSession s (handleVote vote sendVote s).1.
Proof.
  unfold handleVote, handleVote_begin.
  destruct (voteRejected s); [done|].
  destruct (roomId s) eqn:Hr, (user s) eqn:Hu; try done.
  destruct sendVote; cbn; unfold sameSession; simpl_state; by rewrite Hr, Hu.
Qed.

Lemma handleRevealVotes_sameSession s :
  sameSession s (handleRevealVotes s).1.
Proof. unfold handleRevealVotes. by destruct (hubConnection s). Qed.

Lemma handleClearVotes_sameSession clearAll s :
  sameSession s (handleClearVotes clearAll s).1.
Proof.
  unfold handleClearVotes.
  destruct (roomId s) eqn:Hr, (hubConnection s); try done.
  destruct (truthy (Some _)); [|done].
  destruct clearAll; cbn; unfold sameSession; simpl_state; by rewrite Hr.
Qed.

Lemma step_noSessionCaptured w w' :
  step w w' → noSessionCaptured w → noSessionCaptured w'.
Proof.
  intros Hstep [Hpage Hbuilt].
  assert (∀ s', sameSession (app w) s' →
            currentPage s' = createJoin → roomId s' = None ∧ user s' = None)
    as Hsame.
  { intros s' (-> & -> & ->). exact Hpage. }
  destruct Hstep as [w rid nm replies captured Hcj | w c e s' Hc He
                    | w c Hc | w c Hc | w c o Hc | w v o | w | w o | w o];
    split; cbn [app built]; try exact Hbuilt.
  - intros Hcj'.
    destruct (handleJoinRoom_page rid nm replies captured (app w))
      as [Hp|Hn]; [congruence | exact Hn].
  - destruct (Hpage Hcj) as [Hr Hu]. unfold builtAfterJoin.
    destruct (hubConnection (app w)); [exact Hbuilt|].
    intros c [->|Hc]%elem_of_cons; [|by apply Hbuilt]. done.
  - by eapply Hsame, deliver_sameSession.
  - exact Hpage.
  - exact Hpage.
  - destruct (Hbuilt c Hc) as [Hr _].
    by rewrite (onreconnected_no_session c o _ Hr).
  - apply Hsame, handleVote_sameSession.
  - apply Hsame, handleRevealVotes_sameSession.
  - apply Hsame, handleClearVotes_sameSession.
  - by rewrite handleLeaveRoom_state.
Qed.

Lemma reachable_noSessionCaptured w : reachable w → noSessionCaptured w.
Proof.
  unfold reachable. revert w. apply rtc_ind_r.
  - split; [done|]. intros c Hc. by apply elem_of_nil in Hc.
  - intros w1 w2 _ Hstep IH. by eapply step_noSessionCaptured.
Qed.

(** Whatever happened before, no connection of this component re-joins on
    'reconnected': its callback finds no room id or participant, invokes
    nothing and runs the stale [handleLeaveRoom]. *)
Lemma reconnect_never_rejoins w c joinRoom :
  reachable w → c ∈ built w →
  onreconnected c joinRoom (app w)
  = (setHubConnection (Some c)
       (setShowVotesState (showVotesState (app w)) initialState), []).
Proof.
  intros Hreach Hc.
  destruct (reachable_noSessionCaptured w Hreach) as [_ Hbuilt].
  destruct (Hbuilt c Hc) as [Hr _].
  by apply onreconnected_no_session.
Qed.

Lemma joinedR1_reachable : reachable (mkWorld joinedR1 [connectionR1]).
Proof.
  unfold reachable. eapply rtc_l; [|apply rtc_refl].
  exact (step_join initialWorld "R1" "Ada" R1_replies false eq_refl).
Qed.

(** C5: in the session [joinedR1], held by P1 in R1, 'reconnected' invokes
    no JoinRoom at all, however the transport would have answered, and
    tears the local session down, where the claim has JoinRoom re-invoked
    with ("R1", P1). *)
Theorem C5_reconnect_invokes_no_join :
  hubConnection joinedR1 = Some connectionR1
  ∧ roomId joinedR1 = Some "R1"
  ∧ user joinedR1 = Some P1
  ∧ onreconnected connectionR1 Resolved joinedR1
    = (setHubConnection (Some connectionR1) initialState, [])
  ∧ onreconnected connectionR1 (Rejected "hub unreachable") joinedR1
    = (setHubConnection (Some connectionR1) initialState, []).
Proof. by vm_compute. Qed.

(** ** One round, end to end

    P1 is in R1, P2 arrives through a patch, P1's vote comes in, the votes
    are revealed and then cleared. *)
Example one_round :
  ∃ voted shown cleared,
    deliver connectionR1 (VoteReceived "P1" "3") joinedR1_P2 = Return voted
    ∧ deliver connectionR1 VotesRevealed voted = Return shown
    ∧ deliver connectionR1 AllVotesCleared shown = Return cleared
    ∧ room voted
      = Some (Room.mk "R1"
                (<["P2" := Entry.user P2]>
                   {["P1" := Entry.user (User.mk "P1" "Ada" (Some "3"))]}))
    ∧ everyVoteNull roomP1P2 = false
    ∧ (visibility shown, canVote shown) = (Revealed, false)
    ∧ room cleared
      = Some (Room.mk "R1"
                (<["P2" := Entry.user (User.mk "P2" "Grace" None)]>
                   {["P1" := Entry.user P1]}))
    ∧ (visibility cleared, canVote cleared) = (Collecting, true).
Proof.
  eexists _, _, _. split; [reflexivity|]. split; [reflexivity|].
  split; [by vm_compute|]. by vm_compute.
Qed.

(** * Further properties of the code *)

(** ** The control plane *)

Section ControlPlaneFacts.
Variable toText : JsValue → string.
Implicit Types (response : Response) (data : JsValue).
Implicit Types (fields : list (string * JsValue)) (key : string).

Lemma assoc_setField_eq key v fields :
  assoc key (setField key v fields) = Some v.
Proof.
  induction fields as [|[k x] rest IH]; cbn.
  - by rewrite String.eqb_refl.
  - destruct (String.eqb k key) eqn:Hk; cbn; by rewrite Hk.
Qed.

Lemma assoc_setField_ne key k v fields :
  k ≠ key → assoc k (setField key v fields) = assoc k fields.
Proof.
  intros Hne. induction fields as [|[k' x] rest IH]; cbn.
  - by destruct (String.eqb_spec key k).
  - destruct (String.eqb_spec k' key) as [->|Hk']; cbn.
    + by destruct (String.eqb_spec key k).
    + destruct (String.eqb k' k); [done|exact IH].
Qed.

Lemma setField_same key v fields :
  assoc key fields = Some v → setField key v fields = fields.
Proof.
  induction fields as [|[k x] rest IH]; cbn; [done|].
  destruct (String.eqb k key); [by intros [= ->]|].
  intros Hrest. by rewrite IH.
Qed.

(** X1: [createRoom] returns a room id exactly when the request resolved
    with a success response whose body parses; the id is the body's string
    [id] if it has one and the requested id otherwise. *)
Theorem createRoom_returns_iff (roomId : string) (fetched : Result Response)
    (id : string) :
  createRoom roomId fetched = Return id
  ↔ ∃ response data,
      fetched = Return response ∧ ok response = true
      ∧ json response = Return data
      ∧ id = default roomId (stringId data).
Proof.
  split.
  - destruct fetched as [response|e]; [|done].
    destruct (ok response) eqn:Hok.
    + destruct (json response) as [data|e] eqn:Hjson.
      * rewrite (createRoom_ok roomId response data Hok Hjson).
        intros [= <-]. by exists response, data.
      * unfold createRoom. by rewrite Hok, Hjson.
    + intros Hret.
      destruct (createRoom_not_ok roomId response Hok) as [e He].
      congruence.
  - intros (response & data & -> & Hok & Hjson & ->).
    by apply createRoom_ok.
Qed.





End ControlPlaneFacts.




(** X5: for a success response whose body is an object, [fetchRoomData]
    returns that object with a truthy [users] property: the one it had if
    that was truthy (the object is then returned as it came), an empty
    object otherwise; every other property is as in the body. *)
Theorem fetchRoomData_defaults_users (toText : JsValue → string)
    (roomIdToFetch : string) (response : Response)
    (fields : list (string * JsValue)) :
  ok response = true →
  json response = Return (JObject fields) →
  ∃ fields' users,
    fetchRoomData toText roomIdToFetch (Return response)
    = Return (ObjectRoom fields')
    ∧ assoc "users" fields' = Some users
    ∧ falsy users = false
    ∧ (∀ key, key ≠ "users" → assoc key fields' = assoc key fields)
    ∧ (truthyProp "users" (JObject fields) = Some users → fields' = fields)
    ∧ (truthyProp "users" (JObject fields) = None → users = JObject []).
Proof.
  intros Hok Hjson. unfold fetchRoomData. rewrite Hok, Hjson. cbn.
  eexists _, _. split; [reflexivity|].
  split; [apply assoc_setField_eq|].
  split.
  { destruct (assoc "users" fields) as [u|]; [|done].
    by destruct (falsy u) eqn:Hu. }
  split; [intros key Hne; by apply assoc_setField_ne|].
  destruct (assoc "users" fields) as [u|] eqn:Hassoc; [|done].
  destruct (falsy u) eqn:Hu; [done|].
  split; [|done]. intros _. by apply setField_same.
Qed.

Lemma fetchRoomData_defaults_users_witness :
  ok okRoomWithoutUsers = true
  ∧ json okRoomWithoutUsers = Return (JObject [("id", JString "R1")])
  ∧ ∃ fields' users,
      fetchRoomData textOfString "R1" (Return okRoomWithoutUsers)
      = Return (ObjectRoom fields')
      ∧ assoc "users" fields' = Some users
      ∧ falsy users = false
      ∧ (∀ key, key ≠ "users" →
           assoc key fields' = assoc key [("id", JString "R1")])
      ∧ (truthyProp "users" (JObject [("id", JString "R1")]) = Some users →
           fields' = [("id", JString "R1")])
      ∧ (truthyProp "users" (JObject [("id", JString "R1")]) = None →
           users = JObject []).
Proof.
  split; [reflexivity|]. split; [reflexivity|].
  exact (fetchRoomData_defaults_users textOfString "R1" okRoomWithoutUsers
           [("id", JString "R1")] eq_refl eq_refl).
Defined.

(** ** Votes and clears, case by case *)

(** X28: 'AllVotesCleared' with a replica in place. If the replica has an
    own key "hasOwnProperty", the callback throws and the component is
    unmounted. Otherwise the selection is discarded, the votes are hidden,
    voting is open, and the replica keeps its room id and holds every entry
    that was not under "__proto__", with an absent vote and otherwise as it
    was. *)
Theorem clear_all_by_cases (c : HubConnection) (s : AppState) (r : Room.t) :
  room s = Some r →
  match Room.users r !! "hasOwnProperty" with
  | Some _ => deliver c AllVotesCleared s = Throw hasOwnPropertyNotAFunction
  | None =>
      ∃ s', deliver c AllVotesCleared s = Return s'
        ∧ selectedVote s' = None
        ∧ visibility s' = Collecting
        ∧ canVote s' = true
        ∧ room s'
          = Some (Room.mk (Room.id r)
                    (Entry.withVote None
                       <$> delete "__proto__" (Room.users r)))
  end.
Proof.
  intros Hroom. cbn [deliver].
  unfold onAllVotesCleared, Replica.applyClearAll. rewrite Hroom.
  destruct (Room.users r !! "hasOwnProperty") as [e|] eqn:Hown.
  - by rewrite (clearLoop_throws _ e Hown).
  - rewrite (clearLoop_returns _ Hown).
    eexists; split; [reflexivity|].
    unfold visibility, canVote. by simpl_state.
Qed.

Lemma clear_all_by_cases_witness :
  room joinedR1_P2 = Some roomP1P2
  ∧ ∃ s', deliver connectionR1 AllVotesCleared joinedR1_P2 = Return s'
      ∧ selectedVote s' = None
      ∧ visibility s' = Collecting
      ∧ canVote s' = true
      ∧ room s'
        = Some (Room.mk "R1"
                  (Entry.withVote None
                     <$> delete "__proto__" (Room.users roomP1P2))).
Proof.
  split; [vm_compute; reflexivity|].
  apply (clear_all_by_cases connectionR1 joinedR1_P2 roomP1P2).
  vm_compute; reflexivity.
Defined.

(** X29: 'VoteReceived' with a replica in place. An entry that the replica
    holds under the id gets the vote. An id that it does not hold is
    dropped if it names no member of [Object.prototype]; if it names one,
    an entry with that vote and neither id nor name is stored under it,
    except "__proto__", for which nothing is stored. The room id and the
    entries under all other keys are untouched. *)
Theorem vote_received_by_cases (s : AppState) (r : Room.t)
    (userId v : string) :
  room s = Some r →
  ∃ r', room (onVoteReceived userId v s) = Some r'
    ∧ Room.id r' = Room.id r
    ∧ (∀ k, k ≠ userId → Room.users r' !! k = Room.users r !! k)
    ∧ Room.users r' !! userId
      = match Room.users r !! userId with
        | Some e => Some (Entry.withVote (Some v) e)
        | None =>
            if inheritsMember userId && negb (String.eqb userId "__proto__")
            then Some (Entry.bare (Some v))
            else None
        end.
Proof.
  intros Hroom. unfold onVoteReceived. simpl_state. rewrite Hroom.
  destruct (Room.users r !! userId) as [e|] eqn:Hk.
  - rewrite (applyVote_known r userId v e Hk).
    eexists; split; [reflexivity|]. cbn. split; [done|]. split.
    + intros k Hne. by rewrite lookup_insert_ne.
    + by rewrite lookup_insert_eq.
  - destruct (inheritsMember userId) eqn:Hp.
    + destruct (String.eqb_spec userId "__proto__") as [->|Hne].
      * exists r. split.
        { unfold Replica.applyVote.
          by rewrite Hk, Hp, jsAssign_swallowed, withUsers_same. }
        cbn. by repeat split.
      * rewrite (applyVote_inherited r userId v Hk Hp Hne).
        eexists; split; [reflexivity|]. cbn. split; [done|]. split.
        -- intros k Hk'. by rewrite lookup_insert_ne.
        -- by rewrite lookup_insert_eq.
    + rewrite (applyVote_unknown r userId v Hk Hp). by exists r.
Qed.

Lemma vote_received_by_cases_witness :
  room joinedR1_P2 = Some roomP1P2
  ∧ ∃ r', room (onVoteReceived "P2" "8" joinedR1_P2) = Some r'
      ∧ Room.id r' = "R1"
      ∧ (∀ k, k ≠ "P2" → Room.users r' !! k = Room.users roomP1P2 !! k)
      ∧ Room.users r' !! "P2"
        = Some (Entry.user (User.mk "P2" "Grace" (Some "8"))).
Proof.
  split; [vm_compute; reflexivity|].
  apply (vote_received_by_cases joinedR1_P2 roomP1P2 "P2" "8").
  vm_compute; reflexivity.
Defined.

(** ** The event reducers under duplication and reordering *)

Section ReducerAlgebra.
Implicit Types (r prev patch : Room.t) (o : option Room.t).
Implicit Types (m : gmap string Entry.t) (a b v w : string).

Lemma withVote_twice x e :
  Entry.withVote x (Entry.withVote x e) = Entry.withVote x e.
Proof. by destruct e. Qed.

Lemma applyJoin_twice patch o :
  Replica.applyJoin patch (Replica.applyJoin patch o)
  = Replica.applyJoin patch o.
Proof.
  destruct o as [[i m]|]; cbn.
  - by rewrite (assoc_L (∪)), (idemp_L (∪)).
  - destruct patch as [i m]. cbn. by rewrite (idemp_L (∪)).
Qed.

Lemma applyLeave_twice a o :
  Replica.applyLeave a (Replica.applyLeave a o) = Replica.applyLeave a o.
Proof. destruct o as [[i m]|]; cbn; [|done]. by rewrite delete_delete_eq. Qed.

(** The users after a vote, key by key. *)
Lemma applyVote_users prev a v :
  ∃ m', Replica.applyVote a v (Some prev)
        = Some (Room.mk (Room.id prev) m')
    ∧ ∀ k, m' !! k
           = if decide (k = a) then votedEntry a v (Room.users prev)
             else Room.users prev !! k.
Proof.
  unfold Replica.applyVote, votedEntry, Room.withUsers.
  destruct (Room.users prev !! a) as [e|] eqn:Ha.
  - rewrite jsAssign_own by eauto. eexists; split; [reflexivity|].
    intros k. case_decide as Hk; [subst; by rewrite lookup_insert_eq|].
    by rewrite lookup_insert_ne.
  - destruct (inheritsMember a); cbn; [|eexists; split; [reflexivity|]].
    + destruct (String.eqb_spec a "__proto__") as [->|Hne]; cbn.
      * rewrite jsAssign_swallowed by done. eexists; split; [reflexivity|].
        intros k. by case_decide; subst.
      * rewrite jsAssign_ordinary by done. eexists; split; [reflexivity|].
        intros k. case_decide as Hk; [subst; by rewrite lookup_insert_eq|].
        by rewrite lookup_insert_ne.
    + intros k. by case_decide; subst.
Qed.

Lemma votedEntry_ext a v m m' :
  m !! a = m' !! a → votedEntry a v m = votedEntry a v m'.
Proof. unfold votedEntry. by intros ->. Qed.

Lemma votedEntry_twice a v m m' :
  m' !! a = votedEntry a v m → votedEntry a v m' = votedEntry a v m.
Proof.
  unfold votedEntry. intros ->.
  destruct (m !! a) as [e|]; [by rewrite withVote_twice|].
  by destruct (inheritsMember a && negb (String.eqb a "__proto__")).
Qed.

Lemma applyVote_twice a v o :
  Replica.applyVote a v (Replica.applyVote a v o) = Replica.applyVote a v o.
Proof.
  destruct o as [prev|]; [|done].
  destruct (applyVote_users prev a v) as (m1 & -> & H1).
  destruct (applyVote_users (Room.mk (Room.id prev) m1) a v)
    as (m2 & -> & H2).
  cbn in *. do 2 f_equal. apply map_eq. intros k.
  rewrite H2, H1. case_decide; [|done].
  apply votedEntry_twice. rewrite H1. by rewrite decide_True.
Qed.


Lemma applyVote_applyVote a b v w o :
  a ≠ b →
  Replica.applyVote a v (Replica.applyVote b w o)
  = Replica.applyVote b w (Replica.applyVote a v o).
Proof.
  intros Hne. destruct o as [prev|]; [|done].
  destruct (applyVote_users prev b w) as (mb & -> & Hb).
  destruct (applyVote_users prev a v) as (ma & -> & Ha).
  destruct (applyVote_users (Room.mk (Room.id prev) mb) a v)
    as (mba & -> & Hba).
  destruct (applyVote_users (Room.mk (Room.id prev) ma) b w)
    as (mab & -> & Hab).
  cbn in *. do 2 f_equal. apply map_eq. intros k.
  rewrite Hba, Hab, Ha, Hb.
  destruct (decide (k = a)) as [Hka|Hka], (decide (k = b)) as [Hkb|Hkb];
    try done.
  - congruence.
  - apply votedEntry_ext. rewrite Hb. by rewrite decide_False.
  - symmetry. apply votedEntry_ext. rewrite Ha. by rewrite decide_False.
Qed.

(** Clearing what a clear has returned returns the same. *)
Lemma applyClearAll_twice o cleared :
  Replica.applyClearAll o = Return cleared →
  Replica.applyClearAll cleared = Return cleared.
Proof.
  destruct o as [[i m]|]; cbn; [|by intros [= <-]].
  destruct (m !! "hasOwnProperty") as [e|] eqn:Hown.
  - by rewrite (clearLoop_throws m e Hown).
  - rewrite (clearLoop_returns m Hown). intros [= <-].
    cbn. rewrite clearLoop_returns.
    + unfold Room.withUsers. cbn. do 3 f_equal. rewrite <- fmap_delete, delete_delete_eq.
      rewrite <- map_fmap_compose. apply map_fmap_ext.
      intros k e _. apply withVote_twice.
    + by rewrite lookup_fmap, lookup_delete_ne, Hown.
Qed.

End ReducerAlgebra.

(** The callbacks as one record each. *)
Lemma deliver_state c e s :
  deliver c e s
  = match e with
    | UserJoined updatedRoomData _ =>
        Return
          (mkState (currentPage s) (roomId s) (user s)
                   (Replica.applyJoin updatedRoomData (room s))
                   (hubConnection s) (selectedVote s) None (isVoting s)
                   (isLoading s) (showVotesState s))
    | UserLeft userId _ =>
        Return
          (mkState (currentPage s) (roomId s) (user s)
                   (Replica.applyLeave userId (room s))
                   (hubConnection s) (selectedVote s) (error s) (isVoting s)
                   (isLoading s) (showVotesState s))
    | VoteReceived userId vote =>
        Return
          (mkState (currentPage s) (roomId s) (user s)
                   (Replica.applyVote userId vote (room s))
                   (hubConnection s) (selectedVote s) None (isVoting s)
                   (isLoading s) (showVotesState s))
    | VotesRevealed =>
        Return
          (mkState (currentPage s) (roomId s) (user s) (room s)
                   (hubConnection s) (selectedVote s) None false
                   (isLoading s)
                   (negb (sc_showVotesState (handlersScope c))))
    | AllVotesCleared =>
        match Replica.applyClearAll (room s) with
        | Throw error => Throw error
        | Return cleared =>
            Return
              (mkState (currentPage s) (roomId s) (user s) cleared
                       (hubConnection s) None None true (isLoading s) false)
        end
    end.
Proof. by destruct e. Qed.

Lemma deliver_again c e s s' :
  deliver c e s = Return s' → deliver c e s' = Return s'.
Proof.
  rewrite !deliver_state. destruct e.
  - intros [= <-]. simpl_state. by rewrite applyJoin_twice.
  - intros [= <-]. simpl_state. by rewrite applyLeave_twice.
  - intros [= <-]. simpl_state. by rewrite applyVote_twice.
  - by intros [= <-].
  - destruct (Replica.applyClearAll (room s)) as [cleared|] eqn:Hc; [|done].
    intros [= <-]. simpl_state.
    by rewrite (applyClearAll_twice _ _ Hc).
Qed.

(** X6: every event callback absorbs a redelivery: an event delivered twice
    in a row leaves what it leaves when delivered once, the same state or
    the same error. This holds for all five events, 'VotesRevealed'
    included. *)
Theorem deliver_twice (c : HubConnection) (e : HubEvent) (s : AppState) :
  deliverAll c [e; e] s = deliverAll c [e] s.
Proof.
  cbn. destruct (deliver c e s) as [s'|] eqn:He; [|done].
  by rewrite (deliver_again c e s s' He).
Qed.



(** X8: the votes of two different participants can arrive in either
    order. (For one participant the later vote wins.) *)
Theorem votes_of_two_commute (c : HubConnection) (s : AppState)
    (a v b w : string) :
  a ≠ b →
  deliverAll c [VoteReceived b w; VoteReceived a v] s
  = deliverAll c [VoteReceived a v; VoteReceived b w] s.
Proof.
  intros Hne. cbn. unfold onVoteReceived. simpl_state.
  by rewrite (applyVote_applyVote a b v w _ Hne).
Qed.

Lemma votes_of_two_commute_witness :
  deliverAll connectionR1 [VoteReceived "P2" "8"; VoteReceived "P1" "3"]
    joinedR1_P2
  = deliverAll connectionR1 [VoteReceived "P1" "3"; VoteReceived "P2" "8"]
      joinedR1_P2.
Proof.
  apply (votes_of_two_commute connectionR1 joinedR1_P2 "P1" "3" "P2" "8").
  discriminate.
Defined.

(** ** What a whole stream of events does *)

Lemma deliver_replica c e s r :
  room s = Some r →
  match idsAfter (dom (Room.users r)) e with
  | Some ids =>
      ∃ s' r', deliver c e s = Return s'
        ∧ room s' = Some r'
        ∧ Room.id r' = Room.id r
        ∧ dom (Room.users r') = ids
  | None => deliver c e s = Throw hasOwnPropertyNotAFunction
  end.
Proof.
  intros Hroom. rewrite deliver_state, Hroom.
  destruct e as [patch nm|a nm|a v| |]; cbn [idsAfter].
  - eexists _, _. split; [reflexivity|]. cbn. split; [reflexivity|].
    split; [done|]. apply dom_union_L.
  - eexists _, _. split; [reflexivity|]. cbn. split; [reflexivity|].
    split; [done|]. apply dom_delete_L.
  - destruct (applyVote_users r a v) as (m' & -> & Hm').
    assert (dom m'
            = if inheritsMember a && negb (String.eqb a "__proto__")
              then {[a]} ∪ dom (Room.users r) else dom (Room.users r))
      as Hdom.
    { apply set_eq. intros k.
      destruct (inheritsMember a && negb (String.eqb a "__proto__")) eqn:Hadd;
        rewrite ?elem_of_union, ?elem_of_singleton, !elem_of_dom, Hm';
        unfold votedEntry; rewrite Hadd;
        (case_decide as Hka; [subst k|]);
        destruct (Room.users r !! a);
        first [done | split; by eauto | split; [by eauto|by intros [?|?]]]. }
    destruct (inheritsMember a && negb (String.eqb a "__proto__"));
      eexists _, _; (split; [reflexivity|]); cbn;
      (split; [reflexivity|]); by split.
  - eexists _, _. split; [reflexivity|]. cbn. split; [reflexivity|].
    by destruct r.
  - cbn [Replica.applyClearAll].
    case_bool_decide as Hown.
    + apply elem_of_dom in Hown as [e He]. by rewrite (clearLoop_throws _ e).
    + apply not_elem_of_dom in Hown. rewrite (clearLoop_returns _ Hown).
      eexists _, _. split; [reflexivity|]. cbn. split; [reflexivity|].
      unfold Room.withUsers. cbn.
      split; [done|]. by rewrite dom_fmap_L, dom_delete_L.
Qed.

(** X9: with a replica in place, what a stream of events does to the own
    keys of the replica, and whether it unmounts the component, depends
    only on the keys held before and on the events: a 'UserJoined' adds the
    keys of its patch, a 'UserLeft' removes its id, a 'VoteReceived' adds
    its id if that is the name of a member of [Object.prototype] other than
    "__proto__" and nothing otherwise, a 'VotesRevealed' changes nothing,
    and an 'AllVotesCleared' throws if the key "hasOwnProperty" is held and
    otherwise removes the key "__proto__". Unless the stream throws, the
    replica stays in place with its room id. *)
Theorem deliverAll_participants (c : HubConnection) (es : list HubEvent)
    (s : AppState) (r : Room.t) :
  room s = Some r →
  match idsAfterAll (dom (Room.users r)) es with
  | Some ids =>
      ∃ s' r', deliverAll c es s = Return s'
        ∧ room s' = Some r'
        ∧ Room.id r' = Room.id r
        ∧ dom (Room.users r') = ids
  | None => deliverAll c es s = Throw hasOwnPropertyNotAFunction
  end.
Proof.
  revert s r. induction es as [|e es IH]; intros s r Hroom; cbn.
  - by exists s, r.
  - pose proof (deliver_replica c e s r Hroom) as He.
    destruct (idsAfter (dom (Room.users r)) e) as [ids1|].
    + destruct He as (s1 & r1 & -> & Hr1 & Hid & <-).
      specialize (IH s1 r1 Hr1).
      destruct (idsAfterAll (dom (Room.users r1)) es); [|done].
      destruct IH as (s' & r' & ? & ? & ? & ?).
      exists s', r'. repeat split; congruence.
    + by rewrite He.
Qed.

Lemma deliverAll_participants_witness :
  room joinedR1 = Some roomP1
  ∧ match idsAfterAll (dom (Room.users roomP1))
            [UserJoined patchP2 "Grace"; VoteReceived "toString" "8";
             UserLeft "P1" "Ada"; AllVotesCleared] with
    | Some ids =>
        ∃ s' r', deliverAll connectionR1
                   [UserJoined patchP2 "Grace"; VoteReceived "toString" "8";
                    UserLeft "P1" "Ada"; AllVotesCleared] joinedR1
                 = Return s'
          ∧ room s' = Some r'
          ∧ Room.id r' = Room.id roomP1
          ∧ dom (Room.users r') = ids
    | None =>
        deliverAll connectionR1
          [UserJoined patchP2 "Grace"; VoteReceived "toString" "8";
           UserLeft "P1" "Ada"; AllVotesCleared] joinedR1
        = Throw hasOwnPropertyNotAFunction
    end.
Proof.
  split; [reflexivity|].
  apply (deliverAll_participants connectionR1 _ joinedR1 roomP1).
  reflexivity.
Defined.

Lemma deliver_wellKeyed c e s s' r :
  room s = Some r → wellKeyed (Room.users r) → wellKeyedEvent e →
  deliver c e s = Return s' →
  ∃ r', room s' = Some r' ∧ wellKeyed (Room.users r').
Proof.
  intros Hroom Hr He. rewrite deliver_state, Hroom.
  destruct e as [patch nm|a nm|a v| |]; cbn in He.
  - intros [= <-]. eexists; split; [reflexivity|]. cbn.
    intros k x [Hk|[_ Hk]]%lookup_union_Some_raw; eauto.
  - intros [= <-]. eexists; split; [reflexivity|]. cbn.
    intros k x Hk%lookup_delete_Some. apply Hr, Hk.
  - destruct (applyVote_users r a v) as (m' & -> & Hm'). intros [= <-].
    eexists; split; [reflexivity|]. cbn. intros k x. rewrite Hm'.
    case_decide as Hk; [subst k|by apply Hr].
    unfold votedEntry. rewrite He. cbn.
    destruct (Room.users r !! a) as [y|] eqn:Hy; [|done].
    intros [= <-]. destruct (Hr a y Hy) as (u & -> & Hu).
    by exists (User.withVote (Some v) u).
  - intros [= <-]. by exists r.
  - cbn [Replica.applyClearAll].
    destruct (Room.users r !! "hasOwnProperty") as [y|] eqn:Hown.
    + by rewrite (clearLoop_throws _ y).
    + rewrite (clearLoop_returns _ Hown). intros [= <-].
      eexists; split; [reflexivity|]. cbn. intros k x.
      rewrite lookup_fmap.
      destruct (delete "__proto__" (Room.users r) !! k) as [y|] eqn:Hy;
        [|done].
      apply lookup_delete_Some in Hy as [_ Hy]. intros [= <-].
      destruct (Hr k y Hy) as (u & -> & Hu).
      by exists (User.withVote None u).
Qed.

(** X10: if every entry of the replica is a user stored under its own id,
    and a stream of events is delivered without unmounting the component,
    in which every join patch is so too and no vote is for the name of a
    member of [Object.prototype], then afterwards every entry of the replica
    is still a user stored under its own id. *)
Theorem deliverAll_wellKeyed (c : HubConnection) (es : list HubEvent)
    (s s' : AppState) (r : Room.t) :
  room s = Some r →
  wellKeyed (Room.users r) →
  Forall wellKeyedEvent es →
  deliverAll c es s = Return s' →
  ∃ r', room s' = Some r' ∧ wellKeyed (Room.users r').
Proof.
  revert s r. induction es as [|e es IH]; intros s r Hroom Hr Hes; cbn.
  - intros [= <-]. by exists r.
  - apply Forall_cons in Hes as [He Hes].
    destruct (deliver c e s) as [s1|] eqn:Hs1; [|done].
    destruct (deliver_wellKeyed c e s s1 r Hroom Hr He Hs1)
      as (r1 & Hr1 & Hkeyed).
    by apply (IH s1 r1).
Qed.

Lemma wellKeyed_singleton (u : User.t) :
  wellKeyed {[ User.id u := Entry.user u ]}.
Proof. intros k e [<- <-]%lookup_singleton_Some. by exists u. Qed.

Lemma deliverAll_wellKeyed_witness :
  room joinedR1 = Some roomP1
  ∧ wellKeyed (Room.users roomP1)
  ∧ Forall wellKeyedEvent [UserJoined patchP2 "Grace"; VoteReceived "P2" "8"]
  ∧ ∃ s', deliverAll connectionR1
            [UserJoined patchP2 "Grace"; VoteReceived "P2" "8"] joinedR1
          = Return s'
      ∧ ∃ r', room s' = Some r' ∧ wellKeyed (Room.users r').
Proof.
  assert (wellKeyed (Room.users roomP1)) as H1
    by exact (wellKeyed_singleton P1).
  assert (Forall wellKeyedEvent
            [UserJoined patchP2 "Grace"; VoteReceived "P2" "8"]) as H2.
  { repeat constructor. exact (wellKeyed_singleton P2). }
  split; [reflexivity|]. split; [exact H1|]. split; [exact H2|].
  eexists. split; [reflexivity|].
  exact (deliverAll_wellKeyed connectionR1 _ joinedR1 _ roomP1
           eq_refl H1 H2 eq_refl).
Defined.

(** X11: with no replica in place (before the first join and after a
    leave), 'UserLeft', 'VoteReceived', 'VotesRevealed' and
    'AllVotesCleared' leave it absent, but 'UserJoined' installs its patch
    as the replica, room id included; none of them throws. *)
Theorem deliver_without_replica (c : HubConnection) (e : HubEvent)
    (s : AppState) :
  room s = None →
  ∃ s', deliver c e s = Return s'
    ∧ room s'
      = match e with
        | UserJoined updatedRoomData _ => Some updatedRoomData
        | _ => None
        end.
Proof.
  intros Hroom. rewrite deliver_state, Hroom.
  destruct e; eexists; split; reflexivity.
Qed.

Lemma deliver_without_replica_witness :
  room (handleLeaveRoom Resolved joinedR1).1 = None
  ∧ (∃ s', deliver connectionR1 (UserJoined patchP2 "Grace")
             (handleLeaveRoom Resolved joinedR1).1 = Return s'
       ∧ room s' = Some patchP2)
  ∧ (∃ s', deliver connectionR1 (VoteReceived "P1" "3")
             (handleLeaveRoom Resolved joinedR1).1 = Return s'
       ∧ room s' = None).
Proof.
  split; [reflexivity|]. split.
  - apply (deliver_without_replica connectionR1 (UserJoined patchP2 "Grace")).
    reflexivity.
  - apply (deliver_without_replica connectionR1 (VoteReceived "P1" "3")).
    reflexivity.
Defined.

(** ** Local actions *)

(** X12: voting, revealing and clearing never change the replica, the
    visibility flags, the session or the page by themselves: [handleVote]
    and [handleClearVotes] write at most [selectedVote] and [error], and
    [handleRevealVotes] writes nothing. What the room shows changes only
    when an event comes back. *)
Theorem local_actions_leave_replica (s : AppState) (vote : string)
    (sendVote clearAll : Outcome) :
  let unchanged s' :=
    room s' = room s ∧ isVoting s' = isVoting s
    ∧ showVotesState s' = showVotesState s ∧ roomId s' = roomId s
    ∧ user s' = user s ∧ hubConnection s' = hubConnection s
    ∧ currentPage s' = currentPage s ∧ isLoading s' = isLoading s in
  unchanged (handleVote vote sendVote s).1
  ∧ unchanged (handleClearVotes clearAll s).1
  ∧ selectedVote (handleClearVotes clearAll s).1 = selectedVote s
  ∧ (handleRevealVotes s).1 = s.
Proof.
  cbn zeta. split; [|split; [|split]].
  - unfold handleVote, handleVote_begin.
    destruct (voteRejected s); [done|].
    destruct (roomId s) eqn:Hr, (user s) eqn:Hu; try done.
    destruct sendVote; cbn; simpl_state; by rewrite ?Hr, ?Hu.
  - unfold handleClearVotes.
    destruct (roomId s) eqn:Hr, (hubConnection s) eqn:Hc; try done.
    destruct (truthy (Some _)); [|done].
    destruct clearAll; cbn; simpl_state; by rewrite ?Hr, ?Hc.
  - unfold handleClearVotes.
    destruct (roomId s), (hubConnection s); try done.
    destruct (truthy (Some _)); [|done]. by destruct clearAll.
  - unfold handleRevealVotes. by destruct (hubConnection s).
Qed.

(** X13: once a 'VotesRevealed' has arrived, a vote is dropped without a
    remote call and without a trace in the state, whatever the callback had
    captured. *)
Theorem no_vote_after_reveal (scope : Scope) (s : AppState) (vote : string)
    (sendVote : Outcome) :
  handleVote vote sendVote (onVotesRevealed scope s)
  = (onVotesRevealed scope s, []).
Proof.
  unfold handleVote, handleVote_begin.
  by rewrite voteRejected_closed.
Qed.

(** X14: when the connection closes, the room id, the participant and the
    replica are kept, but from then on a vote, a clear and a reveal do
    nothing, and leaving invokes nothing on the hub: no LeaveRoom is sent
    for the participant. *)
Theorem closed_connection_is_silent (s : AppState) (vote : string)
    (sendVote clearAll leaveRoom : Outcome) :
  let s' := onclose s in
  roomId s' = roomId s ∧ user s' = user s ∧ room s' = room s
  ∧ handleVote vote sendVote s' = (s', [])
  ∧ handleClearVotes clearAll s' = (s', [])
  ∧ handleRevealVotes s' = (s', [])
  ∧ (handleLeaveRoom leaveRoom s').2 = [].
Proof.
  cbn zeta. repeat (split; [done|]). split; [|split; [|split]].
  - unfold handleVote, handleVote_begin, voteRejected, onclose. simpl_state.
    cbn. by rewrite orb_true_r.
  - unfold handleClearVotes, onclose. simpl_state. by destruct (roomId s).
  - done.
  - done.
Qed.

(** X15: the reveal and clear buttons are enabled exactly when some
    participant of the replica has a vote. *)
Theorem buttons_enabled_iff_some_vote (r : Room.t) :
  (revealDisabled r = false ∧ clearDisabled r = false)
  ↔ ∃ k u v, Room.users r !! k = Some u ∧ Entry.vote u = Some v.
Proof.
  unfold revealDisabled, clearDisabled. split.
  - intros [Hdis _].
    destruct (decide (map_Forall (λ _ u, Entry.vote u = None) (Room.users r)))
      as [Hall|Hnot].
    + rewrite everyVoteNull_true in Hdis; [done|]. exact Hall.
    + apply map_not_Forall in Hnot as (k & u & Hk & Hv); [|apply _].
      destruct (Entry.vote u) as [v|] eqn:Hvote; [|done]. eauto.
  - intros (k & u & v & Hk & Hv).
    by rewrite (everyVoteNull_false r k u v).
Qed.

(** X16: on the room page, with a connection and some vote in the replica,
    a click on the reveal button invokes RevealVotes once, with the room
    id, and a click on the clear button invokes ClearAllVotes once; neither
    changes the state when the invocation succeeds. *)
Theorem enabled_buttons_invoke_once (s : AppState) (r : Room.t)
    (rid : string) (c : HubConnection) (k : string) (u : Entry.t)
    (v : string) :
  pageRoom s = Some r → roomId s = Some rid → rid ≠ "" →
  hubConnection s = Some c →
  Room.users r !! k = Some u → Entry.vote u = Some v →
  clickReveal s = (s, [RevealVotes (Some rid)])
  ∧ clickClear Resolved s = (s, [ClearAllVotes rid]).
Proof.
  intros Hpage Hrid Hne Hc Hk Hv.
  unfold clickReveal, clickClear, revealDisabled, clearDisabled.
  rewrite Hpage, (everyVoteNull_false r k u v Hk Hv).
  unfold handleRevealVotes, handleClearVotes.
  by rewrite Hc, Hrid, (truthy_Some rid Hne).
Qed.

Lemma enabled_buttons_invoke_once_witness :
  pageRoom joinedR1_P2 = Some roomP1P2
  ∧ clickReveal joinedR1_P2 = (joinedR1_P2, [RevealVotes (Some "R1")])
  ∧ clickClear Resolved joinedR1_P2 = (joinedR1_P2, [ClearAllVotes "R1"]).
Proof.
  split; [vm_compute; reflexivity|].
  apply (enabled_buttons_invoke_once joinedR1_P2 roomP1P2 "R1" connectionR1
           "P2" (Entry.user P2) "5");
    first [discriminate | vm_compute; reflexivity].
Defined.

(** ** Joining *)

(** X17: a join in which every remote step succeeds, started from a render
    that holds no connection, ends on the room page with the room id that
    [createRoom] returned (not the one typed in), the registered
    participant, a replica that is the fetched snapshot with the local
    participant assigned under its id, no error, loading off, and exactly
    two hub calls: the connection is started, then JoinRoom is invoked with
    that room id and participant. The connection it keeps has the callbacks
    of the closure that built it: they hold the room id and participant of
    the render the join started from, and the reveal flag that the memoised
    [setupSignalR] had captured, which need not be the current one. *)
Theorem handleJoinRoom_success (s : AppState) (newRoomId newUserName : string)
    (replies : JoinReplies) (captured : bool) (confirmedRoomId : string)
    (newUser : User.t) (fetchedRoom : Room.t) :
  hubConnection s = None →
  createRoom newRoomId (addRoom replies) = Return confirmedRoomId →
  addUser replies = Return newUser →
  fetchRoom replies = Return fetchedRoom →
  started replies = Resolved →
  registered replies = Resolved →
  let s' := (handleJoinRoom newRoomId newUserName replies captured s).1 in
  (handleJoinRoom newRoomId newUserName replies captured s).2
    = [Start; JoinRoom confirmedRoomId newUser]
  ∧ currentPage s' = planningPoker
  ∧ roomId s' = Some confirmedRoomId
  ∧ user s' = Some newUser
  ∧ room s'
    = Some (Room.mk (Room.id fetchedRoom)
              (jsAssign (User.id newUser) (Entry.user newUser)
                 (Room.users fetchedRoom)))
  ∧ hubConnection s'
    = Some (mkConnection (mkScope (roomId s) (user s) captured))
  ∧ error s' = None ∧ isLoading s' = false
  ∧ selectedVote s' = selectedVote s ∧ isVoting s' = isVoting s
  ∧ showVotesState s' = showVotesState s.
Proof.
  intros Hc Hcreate Hadd Hfetch Hstart Hreg. cbn zeta.
  unfold handleJoinRoom, setupSignalR.
  by rewrite Hcreate, Hadd, Hfetch, Hc, Hstart, Hreg.
Qed.

Lemma handleJoinRoom_success_witness :
  hubConnection initialState = None
  ∧ (handleJoinRoom "R-typed" "Ada"
       (mkReplies (addRoom R1_replies) (addUser R1_replies)
                  (Return (Room.mk "R1" {[ "P2" := Entry.user P2 ]}))
                  Resolved Resolved) false initialState).2
    = [Start; JoinRoom "R1" P1]
  ∧ room (handleJoinRoom "R-typed" "Ada"
            (mkReplies (addRoom R1_replies) (addUser R1_replies)
                       (Return (Room.mk "R1" {[ "P2" := Entry.user P2 ]}))
                       Resolved Resolved) false initialState).1
    = Some (Room.mk "R1"
              (jsAssign "P1" (Entry.user P1) {[ "P2" := Entry.user P2 ]}))
  ∧ hubConnection
      (handleJoinRoom "R-typed" "Ada"
         (mkReplies (addRoom R1_replies) (addUser R1_replies)
                    (Return (Room.mk "R1" {[ "P2" := Entry.user P2 ]}))
                    Resolved Resolved) false initialState).1
    = Some (mkConnection (mkScope None None false)).
Proof.
  split; [reflexivity|].
  destruct (handleJoinRoom_success initialState "R-typed" "Ada"
              (mkReplies (addRoom R1_replies) (addUser R1_replies)
                         (Return (Room.mk "R1" {[ "P2" := Entry.user P2 ]}))
                         Resolved Resolved)
              false "R1" P1 (Room.mk "R1" {[ "P2" := Entry.user P2 ]})
              eq_refl eq_refl eq_refl eq_refl eq_refl eq_refl)
    as (Hcalls & _ & _ & _ & Hroom & Hconn & _).
  split; [exact Hcalls|]. split; [exact Hroom | exact Hconn].
Defined.

Lemma joinFailed_state render e s :
  let s' := (joinFailed render e s).1 in
  roomId s' = None ∧ user s' = None ∧ room s' = None ∧ isLoading s' = false
  ∧ currentPage s' = currentPage s
  ∧ error s'
    = Some (orElse (default "" (error render))
              (orElse e "An unknown error occurred during room creation/join.")).
Proof. cbn zeta. unfold joinFailed. by destruct (hubConnection render). Qed.

Lemma handleJoinRoom_outcome newRoomId newUserName replies captured s :
  let s' := (handleJoinRoom newRoomId newUserName replies captured s).1 in
  currentPage s' = planningPoker
  ∨ ∃ e, roomId s' = None ∧ user s' = None ∧ room s' = None
      ∧ isLoading s' = false ∧ currentPage s' = currentPage s
      ∧ error s'
        = Some (orElse (default "" (error s))
                  (orElse e
                     "An unknown error occurred during room creation/join.")).
Proof.
  cbn zeta. unfold handleJoinRoom.
  assert (∀ e s0 : _, currentPage s0 = currentPage s →
            let s' := (joinFailed s e s0).1 in
            roomId s' = None ∧ user s' = None ∧ room s' = None
            ∧ isLoading s' = false ∧ currentPage s' = currentPage s
            ∧ error s'
              = Some (orElse (default "" (error s))
                        (orElse e
                           "An unknown error occurred during room creation/join.")))
    as Hfailed.
  { intros e s0 Hs0.
    destruct (joinFailed_state s e s0) as (? & ? & ? & ? & Hp & ?).
    cbn zeta. rewrite Hp, Hs0. done. }
  destruct (createRoom _ _) as [confirmedRoomId|e];
    [|right; exists e; by apply Hfailed].
  destruct (addUser replies) as [newUser|e];
    [|right; exists e; by apply Hfailed].
  destruct (fetchRoom replies) as [fetchedRoom|e];
    [|right; exists e; by apply Hfailed].
  destruct (setupSignalR _ _ _ _ _ _ _) as [[[[]|e] s1] calls] eqn:Hsetup.
  - by left.
  - right. exists e.
    assert (currentPage s1 = currentPage s) as Hpage.
    { unfold setupSignalR in Hsetup.
      destruct (hubConnection s); [by injection Hsetup as _ <- _|].
      destruct (started replies); [destruct (registered replies)|];
        by injection Hsetup as _ <- _. }
    specialize (Hfailed e s1 Hpage). cbn zeta in Hfailed.
    by destruct (joinFailed s e s1) as [s2 calls'].
Qed.

(** X18: a join either ends on the room page, or leaves the page where it
    was with the room id, the participant and the replica cleared, loading
    off, and a non-empty error message set. *)
Theorem handleJoinRoom_all_or_nothing (s : AppState)
    (newRoomId newUserName : string) (replies : JoinReplies)
    (captured : bool) :
  let s' := (handleJoinRoom newRoomId newUserName replies captured s).1 in
  currentPage s' = planningPoker
  ∨ (currentPage s' = currentPage s
     ∧ roomId s' = None ∧ user s' = None ∧ room s' = None
     ∧ isLoading s' = false
     ∧ ∃ message, error s' = Some message ∧ message ≠ "").
Proof.
  cbn zeta.
  destruct (handleJoinRoom_outcome newRoomId newUserName replies captured s)
    as [Hpage|(e & Hr & Hu & Hroom & Hl & Hp & He)]; [by left|].
  right. repeat (split; [done|]). eexists; split; [exact He|].
  by do 2 apply orElse_nonempty.
Qed.

(** X19: if an error was showing in the render from which the join was
    started, a join that does not reach the room page shows that same
    error again, whatever went wrong this time: the message is computed
    from the [error] of that render. *)
Theorem failed_join_repeats_old_error (s : AppState)
    (newRoomId newUserName : string) (replies : JoinReplies)
    (captured : bool) (old : string) :
  error s = Some old → old ≠ "" →
  let s' := (handleJoinRoom newRoomId newUserName replies captured s).1 in
  currentPage s' ≠ planningPoker →
  error s' = Some old.
Proof.
  intros Hold Hne. cbn zeta. intros Hpage.
  destruct (handleJoinRoom_outcome newRoomId newUserName replies captured s)
    as [?|(e & _ & _ & _ & _ & _ & He)]; [done|].
  rewrite He, Hold. cbn. unfold orElse at 1.
  by destruct (String.eqb_spec old "").
Qed.

Lemma failed_join_repeats_old_error_witness :
  error (onreconnecting initialState)
  = Some "Connection lost. Attempting to reconnect..."
  ∧ error (handleJoinRoom "R1" "Ada"
             (mkReplies (Throw "Failed to fetch") (addUser R1_replies)
                        (fetchRoom R1_replies) Resolved Resolved)
             false (onreconnecting initialState)).1
    = Some "Connection lost. Attempting to reconnect...".
Proof.
  split; [reflexivity|].
  apply (failed_join_repeats_old_error (onreconnecting initialState)
           "R1" "Ada" _ false "Connection lost. Attempting to reconnect...");
    [reflexivity | discriminate | discriminate].
Defined.

(** X20: if any of the three control-plane steps of a join fails, started
    from a render that holds no connection, nothing is asked of the hub: no
    connection is started and no JoinRoom is invoked. *)
Theorem control_plane_failure_makes_no_hub_call (s : AppState)
    (newRoomId newUserName : string) (replies : JoinReplies)
    (captured : bool) :
  hubConnection s = None →
  (∃ e, createRoom newRoomId (addRoom replies) = Throw e)
  ∨ (∃ e, addUser replies = Throw e)
  ∨ (∃ e, fetchRoom replies = Throw e) →
  (handleJoinRoom newRoomId newUserName replies captured s).2 = [].
Proof.
  intros Hc Hfail. unfold handleJoinRoom, joinFailed. rewrite Hc.
  destruct (createRoom _ _); [|done].
  destruct (addUser replies); [|done].
  destruct (fetchRoom replies); [|done].
  destruct Hfail as [[e ?]|[[e ?]|[e ?]]]; done.
Qed.

Lemma control_plane_failure_makes_no_hub_call_witness :
  hubConnection initialState = None
  ∧ (handleJoinRoom "R1" "Ada"
       (mkReplies (Return serverErrorNoBody) (addUser R1_replies)
                  (fetchRoom R1_replies) Resolved Resolved)
       false initialState).2 = [].
Proof.
  split; [reflexivity|].
  apply (control_plane_failure_makes_no_hub_call initialState "R1" "Ada" _
           false);
    [reflexivity|].
  left. eexists. vm_compute. reflexivity.
Defined.

(** X21: a join started from a render that still holds a connection (as
    after a 'reconnected', which tears the session down but puts the handle
    back) and whose control-plane steps succeed goes to the room page
    without asking anything of the hub: no connection is started and no
    JoinRoom is invoked, and the old handle stays. *)
Theorem join_over_held_connection (s : AppState) (c : HubConnection)
    (newRoomId newUserName : string) (replies : JoinReplies)
    (captured : bool) (confirmedRoomId : string) (newUser : User.t)
    (fetchedRoom : Room.t) :
  hubConnection s = Some c →
  createRoom newRoomId (addRoom replies) = Return confirmedRoomId →
  addUser replies = Return newUser →
  fetchRoom replies = Return fetchedRoom →
  let s' := (handleJoinRoom newRoomId newUserName replies captured s).1 in
  (handleJoinRoom newRoomId newUserName replies captured s).2 = []
  ∧ currentPage s' = planningPoker
  ∧ roomId s' = Some confirmedRoomId
  ∧ user s' = Some newUser
  ∧ hubConnection s' = Some c.
Proof.
  intros Hc Hcreate Hadd Hfetch. cbn zeta.
  unfold handleJoinRoom, setupSignalR.
  by rewrite Hcreate, Hadd, Hfetch, Hc.
Qed.

Lemma join_over_held_connection_witness :
  hubConnection reconnectedR1 = Some connectionR1
  ∧ currentPage reconnectedR1 = createJoin
  ∧ (handleJoinRoom "R1" "Ada" R1_replies false reconnectedR1).2 = []
  ∧ currentPage (handleJoinRoom "R1" "Ada" R1_replies false reconnectedR1).1
    = planningPoker.
Proof.
  split; [reflexivity|]. split; [reflexivity|].
  destruct (join_over_held_connection reconnectedR1 connectionR1 "R1" "Ada"
              R1_replies false "R1" P1 R1_fetched
              eq_refl eq_refl eq_refl eq_refl)
    as (Hcalls & Hpage & _).
  split; [exact Hcalls | exact Hpage].
Defined.

(** X22: when [setupSignalR] fails after building a connection, it keeps no
    connection handle; if JoinRoom had been invoked the connection is
    stopped again, and if the start itself failed nothing but the start was
    attempted. The message it leaves is the "Failed to connect" one in both
    cases: the "Failed to register" message of the inner handler is
    overwritten at once. *)
Theorem setupSignalR_failure_cleans_up (render : AppState)
    (capturedShowVotes : bool) (currentRoomId : string) (currentUser : User.t)
    (start joinRoom : Outcome) (s s' : AppState) (e : string)
    (calls : list HubCall) :
  hubConnection render = None →
  setupSignalR render capturedShowVotes currentRoomId currentUser start
    joinRoom s
  = (Throw e, s', calls) →
  hubConnection s' = None
  ∧ error s'
    = Some ("Failed to connect to real-time service: "
              +:+ orElse e "Unknown error")
  ∧ ((start = Rejected e ∧ calls = [Start])
     ∨ (start = Resolved ∧ joinRoom = Rejected e
        ∧ calls = [Start; JoinRoom currentRoomId currentUser; Stop])).
Proof.
  intros Hc. unfold setupSignalR. rewrite Hc.
  destruct start as [|m]; [destruct joinRoom as [|m]|];
    intros [= <- <- <-]; auto 10.
Qed.

Lemma setupSignalR_failure_cleans_up_witness :
  hubConnection initialState = None
  ∧ ∃ s', setupSignalR initialState false "R1" P1 Resolved (Rejected "")
            initialState
          = (Throw "", s', [Start; JoinRoom "R1" P1; Stop])
      ∧ hubConnection s' = None
      ∧ error s'
        = Some "Failed to connect to real-time service: Unknown error".
Proof.
  split; [reflexivity|]. eexists. split; [reflexivity|].
  destruct (setupSignalR_failure_cleans_up initialState false "R1" P1 Resolved
              (Rejected "") initialState _ "" _ eq_refl eq_refl)
    as (Hc & He & _).
  split; [exact Hc | exact He].
Defined.

(** ** Reconnecting, in every reachable state *)

(** X23: in every state the component can reach, the 'reconnected' callback
    of any connection it has built invokes nothing on the hub and leaves the
    join form showing with no room id, no participant, no replica, and that
    connection as the handle, however the transport would have answered a
    JoinRoom. *)
Theorem reconnected_always_tears_down (w : World) (c : HubConnection)
    (joinRoom : Outcome) :
  reachable w → c ∈ built w →
  let s' := (onreconnected c joinRoom (app w)).1 in
  (onreconnected c joinRoom (app w)).2 = []
  ∧ currentPage s' = createJoin
  ∧ roomId s' = None ∧ user s' = None ∧ room s' = None
  ∧ hubConnection s' = Some c.
Proof.
  intros Hreach Hc. cbn zeta.
  by rewrite (reconnect_never_rejoins w c joinRoom Hreach Hc).
Qed.

Lemma reconnected_always_tears_down_witness :
  reachable (mkWorld joinedR1 [connectionR1])
  ∧ connectionR1 ∈ [connectionR1]
  ∧ (onreconnected connectionR1 Resolved joinedR1).2 = []
  ∧ currentPage (onreconnected connectionR1 Resolved joinedR1).1 = createJoin.
Proof.
  assert (connectionR1 ∈ [connectionR1]) as Hin by apply list_elem_of_here.
  split; [exact joinedR1_reachable|]. split; [exact Hin|].
  destruct (reconnected_always_tears_down (mkWorld joinedR1 [connectionR1])
              connectionR1 Resolved joinedR1_reachable Hin)
    as (Hcalls & Hpage & _).
  split; [exact Hcalls | exact Hpage].
Defined.

(** ** The presentational components *)

(** X24: while the votes are hidden, a card does not depend on what a
    participant voted, only on whether they voted: two participants with
    the same name who both voted, or both did not, get the same card. *)
Theorem hidden_card_hides_the_vote (u u' : User.t) (isCurrent : bool) :
  User.name u = User.name u' →
  (is_Some (User.vote u) ↔ is_Some (User.vote u')) →
  UserCard u isCurrent false = UserCard u' isCurrent false.
Proof.
  intros Hname Hvoted. unfold UserCard. rewrite Hname. f_equal.
  destruct (User.vote u) as [v|], (User.vote u') as [v'|]; try done.
  - destruct Hvoted as [Hv _]. destruct Hv as [? [=]]. eauto.
  - destruct Hvoted as [_ Hv]. destruct Hv as [? [=]]. eauto.
Qed.

Lemma hidden_card_hides_the_vote_witness :
  UserCard P2 false false
  = UserCard (User.withVote (Some "13") P2) false false.
Proof.
  apply (hidden_card_hides_the_vote P2 (User.withVote (Some "13") P2) false);
    [reflexivity|].
  split; intros _; eexists; reflexivity.
Defined.

(** X25: whatever button of the vote selector is clicked, in whatever
    state, every hub call that results is a SendVote for the room id and the
    participant id of the session, carrying one of the nine card values,
    and is made only while voting is open. *)
Theorem clickVote_sends_a_card_value (i : nat) (sendVote : Outcome)
    (s : AppState) (call : HubCall) :
  call ∈ (clickVote i sendVote s).2 →
  ∃ r u number,
    call = SendVote r (User.id u) number
    ∧ number ∈ FIBONACCI_NUMBERS
    ∧ roomId s = Some r ∧ user s = Some u ∧ isVoting s = true.
Proof.
  unfold clickVote.
  destruct (pageRoom s); [|by intros ?%elem_of_nil].
  destruct (FIBONACCI_NUMBERS !! i) as [number|] eqn:Hi;
    [|by intros ?%elem_of_nil].
  destruct (isVoting s) eqn:Hv; [|by intros ?%elem_of_nil].
  unfold handleVote, handleVote_begin.
  destruct (voteRejected s); [by intros ?%elem_of_nil|].
  destruct (roomId s) as [r|]; [|by intros ?%elem_of_nil].
  destruct (user s) as [u|]; [|by intros ?%elem_of_nil].
  cbn. intros ->%list_elem_of_singleton.
  exists r, u, number. repeat (split; [done|]).
  split; [|done]. by eapply list_elem_of_lookup_2.
Qed.

Lemma clickVote_sends_a_card_value_witness :
  SendVote "R1" "P1" "5" ∈ (clickVote 4 Resolved joinedR1).2
  ∧ ∃ r u number,
      SendVote "R1" "P1" "5" = SendVote r (User.id u) number
      ∧ number ∈ FIBONACCI_NUMBERS
      ∧ roomId joinedR1 = Some r ∧ user joinedR1 = Some u
      ∧ isVoting joinedR1 = true.
Proof.
  assert (SendVote "R1" "P1" "5" ∈ (clickVote 4 Resolved joinedR1).2) as Hin.
  { vm_compute. apply list_elem_of_here. }
  split; [exact Hin|].
  exact (clickVote_sends_a_card_value 4 Resolved joinedR1 _ Hin).
Defined.

(** X26: a click on the enter button calls [onJoinRoom] only when the form
    is not loading and both the trimmed name and the trimmed room id are
    non-empty, and passes it these trimmed values; the form is then loading,
    and a further click does nothing. *)
Theorem enter_room_calls_once (trim : string → string) (f f' : JoinForm)
    (rid name : string) :
  clickEnterRoom trim f = (f', Some (rid, name)) →
  rid = trim (form_roomId f) ∧ name = trim (form_userName f)
  ∧ rid ≠ "" ∧ name ≠ ""
  ∧ form_loading f = false ∧ form_loading f' = true
  ∧ form_error f' = None
  ∧ clickEnterRoom trim f' = (f', None).
Proof.
  unfold clickEnterRoom, handleJoin.
  destruct (form_loading f) eqn:Hl; [done|].
  destruct (String.eqb_spec (trim (form_userName f)) "") as [|Hname]; [done|].
  destruct (String.eqb_spec (trim (form_roomId f)) "") as [|Hroom]; [done|].
  by intros [= <- <- <-].
Qed.

Lemma enter_room_calls_once_witness :
  clickEnterRoom noTrim filledForm
  = (mkForm "R1" "Ada" true None, Some ("R1", "Ada"))
  ∧ clickEnterRoom noTrim (mkForm "R1" "Ada" true None)
    = (mkForm "R1" "Ada" true None, None).
Proof.
  split; [reflexivity|].
  apply (enter_room_calls_once noTrim filledForm (mkForm "R1" "Ada" true None)
           "R1" "Ada" eq_refl).
Defined.

(** X27: a click on the enter button of a form that is not loading, with a
    name or a room id that trims to nothing, calls nothing and only sets
    the error: "Please enter your name" when the name is missing (whatever
    the room id), "Please enter a Room ID" otherwise. *)
Theorem enter_room_validates (trim : string → string) (f : JoinForm) :
  form_loading f = false →
  trim (form_userName f) = "" ∨ trim (form_roomId f) = "" →
  clickEnterRoom trim f
  = (mkForm (form_roomId f) (form_userName f) false
            (Some (if String.eqb (trim (form_userName f)) ""
                   then "Please enter your name"
                   else "Please enter a Room ID")),
     None).
Proof.
  intros Hl Hempty. unfold clickEnterRoom, handleJoin. rewrite Hl.
  destruct (String.eqb_spec (trim (form_userName f)) "") as [|Hname];
    [done|].
  destruct Hempty as [?|Hroom]; [done|]. by rewrite Hroom.
Qed.

Lemma enter_room_validates_witness :
  clickEnterRoom noTrim emptyForm
  = (mkForm "" "" false (Some "Please enter your name"), None).
Proof.
  apply (enter_room_validates noTrim emptyForm); [reflexivity|].
  left. reflexivity.
Defined.
